(** * Enrollment manager and fee ledger of the LMS backend

    A shallow embedding of the handlers of [admin_routes.py] and
    [lms_routes.py] that enroll students in batches and keep the fee
    ledger, over the documents of [lms_models.py].

    - A MongoDB collection is the list of its documents, in storage order:
      [find_one] returns the first match and [update_one] rewrites the first
      match.
    - Amounts are Python floats, that is IEEE 754 binary64: they are
      Rocq's primitive floats, whose operations round as Python's do.
      An [int] of a request has no bound; what a request body hands to a
      handler unchecked is a Python value of any type.
    - A handler is a computation in a state and error monad over the
      database.  A raised [HTTPException] keeps every write made before it:
      the handlers use no transaction.  An exception that no handler
      catches, from Python arithmetic, the calendar or the driver,
      answers 500 in the same way. *)

From Stdlib Require Import List String Ascii ZArith Lia Bool.
From Stdlib Require Import Floats Uint63 DecimalString.
Import ListNotations.

Local Open Scope string_scope.
Local Open Scope Z_scope.

(** ** Python built-ins used by the handlers *)

Module Py.

(** [max(0, x)]: Python keeps the first argument unless a later one is
    strictly greater, so a NaN or a negative [x] gives [0]. *)
Definition max0 (x : float) : float :=
  if (0 <? x)%float then x else 0%float.

(** The nearest float of [m * 2^e], ties to even; [None] when it is
    beyond the largest float. *)
Definition nearest_float (m e : Z) : option float :=
  match binary_normalize prec emax m e false with
  | S754_infinity _ => None
  | s => Some (SF2Prim s)
  end.

(** [float(n)], which is also what an [int] operand of a float operation
    becomes: the nearest float, which below [2^63] is the conversion of
    the machine; [None] is the [OverflowError] of an [int] too large to
    convert. *)
Definition float_of_int (n : Z) : option float :=
  if Z.abs n <? 2 ^ 63 then
    Some (if n <? 0 then (- PrimFloat.of_uint63 (Uint63.of_Z (- n)))%float
          else PrimFloat.of_uint63 (Uint63.of_Z n))
  else nearest_float n 0.

(** [n / 2] on an [int]: true division gives the nearest float of the
    quotient; [None] is the [OverflowError] of a result too large for a
    float. *)
Definition half_of_int (n : Z) : option float :=
  nearest_float n (-1).

(** [sum(xs)]: a left fold of [+] that starts from [0]. *)
Definition sum (xs : list float) : float :=
  fold_left PrimFloat.add xs 0%float.

(** [range(n)] *)
Definition range (n : Z) : list Z :=
  map Z.of_nat (seq 0 (Z.to_nat n)).

(** [x in xs] on a list of strings *)
Definition mem (x : string) (xs : list string) : bool :=
  existsb (String.eqb x) xs.

Definition upper_char (c : ascii) : ascii :=
  let n := nat_of_ascii c in
  if andb (Nat.leb 97 n) (Nat.leb n 122) then ascii_of_nat (n - 32) else c.

(** [s.upper()], on ASCII *)
Fixpoint upper (s : string) : string :=
  match s with
  | EmptyString => EmptyString
  | String c r => String (upper_char c) (upper r)
  end.

(** [str(n)] for a natural number *)
Definition str_nat (n : nat) : string :=
  NilZero.string_of_uint (Nat.to_uint n).

End Py.

(** ** The document-store operations the handlers call *)

Module Mongo.

Section Collection.
Context {D : Type}.

(** [find_one(filter)] *)
Definition find_one (filter : D -> bool) (c : list D) : option D :=
  find filter c.

(** [update_one(filter, update)]: the first match is rewritten, nothing
    happens when no document matches. *)
Fixpoint update_one (filter : D -> bool) (update : D -> D) (c : list D)
  : list D :=
  match c with
  | [] => []
  | d :: r =>
      if filter d then update d :: r
      else d :: update_one filter update r
  end.

(** [update_one(filter, update, upsert=True)]: [fresh] is the document
    built from the filter and the update when nothing matches. *)
Definition update_one_upsert (filter : D -> bool) (update : D -> D)
  (fresh : D) (c : list D) : list D :=
  if existsb filter c then update_one filter update c
  else (c ++ [fresh])%list.

(** [insert_one(doc)] *)
Definition insert_one (doc : D) (c : list D) : list D :=
  (c ++ [doc])%list.
End Collection.

(** [$addToSet] on an array of strings *)
Definition addToSet (x : string) (xs : list string) : list string :=
  if Py.mem x xs then xs else (xs ++ [x])%list.

(** [$pull] on an array of strings: every occurrence goes. *)
Definition pull (x : string) (xs : list string) : list string :=
  filter (fun y => negb (String.eqb y x)) xs.

End Mongo.

(** ** Python values, and [serialize_doc], the same function in
    [admin_routes.py], [lms_routes.py] and [teacher_routes.py] *)

Module Doc.

#[local] Unset Elimination Schemes.

(** What a document read from the store or a parsed request body
    holds.  A [dict] is the list of its items in insertion order; a
    [VDate] is a [datetime.date], numbered by its day, as pydantic
    builds it for a [date] field. *)
Inductive value :=
| VNone
| VBool (b : bool)
| VInt (n : Z)
| VFloat (x : float)
| VStr (s : string)
| VObjectId (oid : string)
| VDatetime (t : Z)
| VDate (day : Z)
| VList (items : list value)
| VDict (entries : list (string * value)).

#[local] Set Elimination Schemes.

Definition is_id (kv : string * value) : bool := String.eqb (fst kv) "_id".

Fixpoint serialize_doc (doc : value) : value :=
  match doc with
  | VNone => VNone
  | VList items => VList (map serialize_doc items)
  | VDict entries => VDict (List.filter (fun kv => negb (is_id kv)) entries)
  | other => other
  end.

(** [d.get(k)] on the items of a dict *)
Definition get (k : string) (entries : list (string * value)) : option value :=
  option_map snd (List.find (fun kv => String.eqb (fst kv) k) entries).

(** No dict met on the way down through lists has an ["_id"] key. *)
Fixpoint no_id (doc : value) : bool :=
  match doc with
  | VList items => forallb no_id items
  | VDict entries => negb (existsb is_id entries)
  | _ => true
  end.

End Doc.

(** ** What the driver can encode *)

Module Bson.

(** An [int] is encoded in at most 8 bytes. *)
Definition int64 (n : Z) : bool := (- 2 ^ 63 <=? n) && (n <? 2 ^ 63).

(** Whether [insert_one] and [update_one] can encode the value.  An
    [int] beyond 8 bytes raises [OverflowError] and a [datetime.date]
    raises [InvalidDocument]; a handler that catches neither answers
    500 and the collection is left as it was. *)
Fixpoint encodable (v : Doc.value) : bool :=
  match v with
  | Doc.VInt n => int64 n
  | Doc.VDate _ => false
  | Doc.VList items => forallb encodable items
  | Doc.VDict entries => forallb (fun kv => encodable (snd kv)) entries
  | _ => true
  end.

End Bson.

(** ** Python arithmetic on the values of a request body *)

Module PyNum.

(** A raised exception: its class, and the text [str(e)] gives. *)
Inductive exception :=
| Raised (class message : string).

Definition str (e : exception) : string :=
  match e with Raised _ message => message end.

Definition int_too_large : exception :=
  Raised "OverflowError" "int too large to convert to float".

Definition division_too_large : exception :=
  Raised "OverflowError" "integer division result too large for a float".

Definition date_out_of_range : exception :=
  Raised "OverflowError" "date value out of range".

(** The name of the type of a value, as an error text prints it. *)
Definition type_name (v : Doc.value) : string :=
  match v with
  | Doc.VNone => "NoneType"
  | Doc.VBool _ => "bool"
  | Doc.VInt _ => "int"
  | Doc.VFloat _ => "float"
  | Doc.VStr _ => "str"
  | Doc.VObjectId _ => "ObjectId"
  | Doc.VDatetime _ => "datetime.datetime"
  | Doc.VDate _ => "datetime.date"
  | Doc.VList _ => "list"
  | Doc.VDict _ => "dict"
  end.

(** The numbers of Python: an [int] has no bound, and a [bool] is the
    [int] 0 or 1. *)
Inductive number :=
| Int (n : Z)
| Float (x : float).

Definition number_of (v : Doc.value) : option number :=
  match v with
  | Doc.VBool b => Some (Int (if b then 1 else 0))
  | Doc.VInt n => Some (Int n)
  | Doc.VFloat x => Some (Float x)
  | _ => None
  end.

(** The operands of [a - b] on values of a JSON body: unless both are
    numbers the subtraction raises [TypeError]. *)
Definition operands (a b : Doc.value) : exception + number * number :=
  match number_of a, number_of b with
  | Some x, Some y => inr (x, y)
  | _, _ =>
      inl (Raised "TypeError"
             ("unsupported operand type(s) for -: '" ++ type_name a
              ++ "' and '" ++ type_name b ++ "'")%string)
  end.

(** [float(a)], which is also how pydantic fills a [float] field from
    a number. *)
Definition to_float (a : number) : exception + float :=
  match a with
  | Float x => inr x
  | Int n =>
      match Py.float_of_int n with
      | Some x => inr x
      | None => inl int_too_large
      end
  end.

(** [a - b] on numbers: exact on two [int]s, in floats otherwise. *)
Definition sub (a b : number) : exception + number :=
  match a, b with
  | Int x, Int y => inr (Int (x - y))
  | _, _ =>
      match to_float a, to_float b with
      | inr x, inr y => inr (Float (x - y)%float)
      | inl e, _ => inl e
      | _, inl e => inl e
      end
  end.

(** [a > 0] *)
Definition gt0 (a : number) : bool :=
  match a with
  | Int n => 0 <? n
  | Float x => (0 <? x)%float
  end.

(** [a / 2] *)
Definition half (a : number) : exception + float :=
  match a with
  | Float x => inr (x / 2)%float
  | Int n =>
      match Py.half_of_int n with
      | Some x => inr x
      | None => inl division_too_large
      end
  end.

End PyNum.

(** ** Documents ([lms_models.py])

    Fields that no modelled handler reads or writes (dates, schedule,
    address data of a profile) are left out of the records. *)

Module Batch.
Record t := mk {
  id : string;
  course_id : string;
  batch_name : string;
  teacher_id : string;
  max_students : option Z;
  enrolled_students : list string;
  status : string
}.

(** [batch.get("max_students", 30)] *)
Definition capacity (b : t) : Z :=
  match max_students b with Some m => m | None => 30 end.

Definition with_enrolled_students (f : list string -> list string) (b : t) : t :=
  mk (id b) (course_id b) (batch_name b) (teacher_id b) (max_students b)
     (f (enrolled_students b)) (status b).

Definition by_id (i : string) (b : t) : bool := String.eqb (id b) i.
End Batch.

Module StudentProfile.
Record t := mk {
  user_id : string;
  enrolled_courses : list string;
  batch_id : option string;
  status : string
}.

Definition by_user_id (u : string) (p : t) : bool :=
  String.eqb (user_id p) u.
End StudentProfile.

Module User.
Record t := mk {
  id : string;
  name : string;
  email : string;
  phone : string;
  role : string;
  hashed_password : string;
  created_at : Z
}.

Definition by_email (e : string) (u : t) : bool := String.eqb (email u) e.
End User.

Module Installment.
(** An installment is a dict; [status] is read with [.get]. *)
Record t := mk {
  installment_number : Z;
  amount : float;
  due_date : Z;
  status : option string
}.

Definition is_paid (i : t) : bool :=
  match status i with Some s => String.eqb s "paid" | None => false end.
End Installment.

Module FeeStructure.
Record t := mk {
  id : string;
  student_id : string;
  course_id : string;
  batch_id : string;
  total_fee : float;
  paid_amount : float;
  pending_amount : float;
  installments : list Installment.t;
  discount_applied : float;
  created_at : Z
}.

Definition by_id (i : string) (f : t) : bool := String.eqb (id f) i.

(** [{"$set": {"paid_amount": p, "pending_amount": q}}] *)
Definition set_amounts (p q : float) (f : t) : t :=
  mk (id f) (student_id f) (course_id f) (batch_id f) (total_fee f)
     p q (installments f) (discount_applied f) (created_at f).
End FeeStructure.

Module FeePayment.
Record t := mk {
  id : string;
  fee_structure_id : string;
  student_id : string;
  amount : float;
  payment_date : Z;
  payment_method : string;
  transaction_id : option string;
  installment_number : Z;
  receipt_number : string;
  notes : option string
}.
End FeePayment.

(** ** The database and the handler monad *)

Record DB := mkDB {
  batches : list Batch.t;
  student_profiles : list StudentProfile.t;
  users : list User.t;
  fee_structures : list FeeStructure.t;
  fee_payments : list FeePayment.t
}.

Definition on_batches (f : list Batch.t -> list Batch.t) (db : DB) : DB :=
  mkDB (f (batches db)) (student_profiles db) (users db)
       (fee_structures db) (fee_payments db).

Definition on_student_profiles
  (f : list StudentProfile.t -> list StudentProfile.t) (db : DB) : DB :=
  mkDB (batches db) (f (student_profiles db)) (users db)
       (fee_structures db) (fee_payments db).

Definition on_users (f : list User.t -> list User.t) (db : DB) : DB :=
  mkDB (batches db) (student_profiles db) (f (users db))
       (fee_structures db) (fee_payments db).

Definition on_fee_structures
  (f : list FeeStructure.t -> list FeeStructure.t) (db : DB) : DB :=
  mkDB (batches db) (student_profiles db) (users db)
       (f (fee_structures db)) (fee_payments db).

Definition on_fee_payments
  (f : list FeePayment.t -> list FeePayment.t) (db : DB) : DB :=
  mkDB (batches db) (student_profiles db) (users db)
       (fee_structures db) (f (fee_payments db)).

Inductive HTTPException :=
  HTTP (status_code : Z) (detail : string).

(** The error kinds of the ledger core, as the handlers raise them. *)
Definition BatchNotFound := HTTP 404 "Batch not found".
Definition FeeStructureNotFound := HTTP 404 "Fee structure not found".
Definition CapacityExceeded := HTTP 400 "Batch is full".
Definition AlreadyEnrolled := HTTP 400 "Student already enrolled in this batch".
(** What the server answers on an exception no handler catches. *)
Definition InternalServerError := HTTP 500 "Internal Server Error".

Definition M (A : Type) : Type := DB -> (HTTPException + A) * DB.

Definition ret {A} (a : A) : M A := fun db => (inr a, db).

Definition raise {A} (e : HTTPException) : M A := fun db => (inl e, db).

Definition bind {A B} (m : M A) (k : A -> M B) : M B :=
  fun db =>
    match m db with
    | (inl e, db') => (inl e, db')
    | (inr a, db') => k a db'
    end.

Definition read {A} (f : DB -> A) : M A := fun db => (inr (f db), db).

Definition write (f : DB -> DB) : M unit := fun db => (inr tt, f db).

Notation "x <- m ;; k" := (bind m (fun x => k))
  (at level 61, m at next level, right associativity).
Notation "m ;; k" := (bind m (fun _ => k))
  (at level 61, right associativity).

(** What a handler reads from outside the database: the clock, the date
    as [strftime('%Y%m%d')] prints it, and the [uuid4()] strings it draws,
    numbered in the order of the draws. *)
Record Env := mkEnv {
  utcnow : Z;
  today : string;
  uuid4 : nat -> string
}.

(** [timedelta(days=d)], in seconds *)
Definition days (d : Z) : Z := 86400 * d.

(** ** [admin_routes.py] *)

Module admin_routes.

(** [datetime.max], 9999-12-31 23:59:59, in seconds since the epoch *)
Definition datetime_max : Z := 253402300799.


(** The largest [days] a [timedelta] takes *)
Definition timedelta_max_days : Z := 999999999.

(** [now + timedelta(days=d)] for a clock [now] and [d >= 0]: [None] is
    the [OverflowError] of a [timedelta] that is too long or of a date
    past [datetime.max]. *)
Definition plus_days (now d : Z) : option Z :=
  if (timedelta_max_days <? d) || (datetime_max <? now + days d) then None
  else Some (now + days d).

(** The [for i in ...] loop both fee-creating handlers run to build the
    installment schedule: every entry carries [per_installment]; the
    first due date that cannot be computed ends the loop with its
    [OverflowError]. *)
Fixpoint installment_loop (now : Z) (per_installment : float) (indices : list Z)
  : option (list Installment.t) :=
  match indices with
  | [] => Some []
  | i :: rest =>
      match plus_days now (30 * (i + 1)) with
      | None => None
      | Some due_date =>
          match installment_loop now per_installment rest with
          | None => None
          | Some installment_list =>
              Some (Installment.mk (i + 1) per_installment due_date
                      (Some "pending") :: installment_list)
          end
      end
  end.

(** [installment_list] after [for i in range(n)], or [None] when the
    loop raised. *)
Definition installment_list (now : Z) (per_installment : float) (n : Z)
  : option (list Installment.t) :=
  installment_loop now per_installment (Py.range n).

(** [POST /batches/{batch_id}/enroll] *)
Definition enroll_student (batch_id student_id : string) : M string :=
  batch <- read (fun db => Mongo.find_one (Batch.by_id batch_id) (batches db)) ;;
  match batch with
  | None => raise BatchNotFound
  | Some batch =>
      if Z.of_nat (List.length (Batch.enrolled_students batch)) >=? Batch.capacity batch
      then raise CapacityExceeded
      else
        write (on_batches (Mongo.update_one (Batch.by_id batch_id)
                 (Batch.with_enrolled_students (Mongo.addToSet student_id)))) ;;
        write (on_student_profiles
                 (Mongo.update_one (StudentProfile.by_user_id student_id)
                    (fun p => StudentProfile.mk (StudentProfile.user_id p)
                                (Mongo.addToSet (Batch.course_id batch)
                                   (StudentProfile.enrolled_courses p))
                                (Some batch_id) (StudentProfile.status p)))) ;;
        ret "Student enrolled successfully"
  end.

(** [POST /batches/{batch_id}/remove-student] *)
Definition remove_student_from_batch (batch_id student_id : string)
  : M string :=
  write (on_batches (Mongo.update_one (Batch.by_id batch_id)
           (Batch.with_enrolled_students (Mongo.pull student_id)))) ;;
  write (on_student_profiles
           (Mongo.update_one (StudentProfile.by_user_id student_id)
              (fun p => StudentProfile.mk (StudentProfile.user_id p)
                          (StudentProfile.enrolled_courses p) None
                          (StudentProfile.status p)))) ;;
  ret "Student removed from batch".

(** [POST /enroll-student].  [pending / installments] raises
    [ZeroDivisionError] for [installments == 0] and [OverflowError] for
    an [installments] too large for a float, and the loop raises
    [OverflowError] at a due date past the year 9999; nothing catches
    them, and the roster and profile writes made before them stay. *)
Definition enroll_student_with_fees (env : Env) (batch_id student_id : string)
  (total_fee discount : float) (installments : Z) : M (string * string) :=
  batch <- read (fun db => Mongo.find_one (Batch.by_id batch_id) (batches db)) ;;
  match batch with
  | None => raise BatchNotFound
  | Some batch =>
      if Z.of_nat (List.length (Batch.enrolled_students batch)) >=? Batch.capacity batch
      then raise CapacityExceeded
      else if Py.mem student_id (Batch.enrolled_students batch)
      then raise AlreadyEnrolled
      else
        write (on_batches (Mongo.update_one (Batch.by_id batch_id)
                 (Batch.with_enrolled_students (Mongo.addToSet student_id)))) ;;
        write (on_student_profiles
                 (Mongo.update_one_upsert (StudentProfile.by_user_id student_id)
                    (fun p => StudentProfile.mk (StudentProfile.user_id p)
                                (Mongo.addToSet (Batch.course_id batch)
                                   (StudentProfile.enrolled_courses p))
                                (Some batch_id) "active")
                    (StudentProfile.mk student_id [Batch.course_id batch]
                       (Some batch_id) "active"))) ;;
        (if (0 <? total_fee)%float then
           let pending := (total_fee - discount)%float in
           if installments =? 0 then raise InternalServerError
           else
             match Py.float_of_int installments with
             | None => raise InternalServerError
             | Some divisor =>
                 let per_installment := (pending / divisor)%float in
                 match installment_list (utcnow env) per_installment installments with
                 | None => raise InternalServerError
                 | Some installment_list =>
                     let fee :=
                       FeeStructure.mk (uuid4 env 0) student_id
                         (Batch.course_id batch) batch_id total_fee 0%float
                         pending installment_list discount (utcnow env) in
                     write (on_fee_structures (Mongo.insert_one fee))
                 end
             end
         else ret tt) ;;
        ret ("Student enrolled successfully", batch_id)
  end.

(** [POST /fees/structure]: the caller supplies the installments. *)
Definition create_fee_structure (env : Env)
  (student_id course_id batch_id : string) (total_fee : float)
  (installments : list Installment.t) (discount : float) : M (string * string) :=
  let pending := (total_fee - discount)%float in
  let fee :=
    FeeStructure.mk (uuid4 env 0) student_id course_id batch_id total_fee
      0%float pending installments discount (utcnow env) in
  write (on_fee_structures (Mongo.insert_one fee)) ;;
  ret ("Fee structure created", FeeStructure.id fee).

(** [POST /fees/payment] *)
Definition record_fee_payment (env : Env) (fee_structure_id : string)
  (amount : float) (payment_method : string)
  (transaction_id notes : option string) : M (string * string) :=
  fee <- read (fun db =>
           Mongo.find_one (FeeStructure.by_id fee_structure_id) (fee_structures db)) ;;
  match fee with
  | None => raise FeeStructureNotFound
  | Some fee =>
      let receipt_number :=
        ("RCP" ++ today env ++ Py.upper (substring 0 6 (uuid4 env 0)))%string in
      let payment :=
        FeePayment.mk (uuid4 env 1) fee_structure_id
          (FeeStructure.student_id fee) amount (utcnow env) payment_method
          transaction_id
          (Z.of_nat (List.length (filter Installment.is_paid
                               (FeeStructure.installments fee))) + 1)
          receipt_number notes in
      write (on_fee_payments (Mongo.insert_one payment)) ;;
      let new_paid := (FeeStructure.paid_amount fee + amount)%float in
      let new_pending := (FeeStructure.pending_amount fee - amount)%float in
      write (on_fee_structures
               (Mongo.update_one (FeeStructure.by_id fee_structure_id)
                  (FeeStructure.set_amounts new_paid (Py.max0 new_pending)))) ;;
      ret ("Payment recorded", receipt_number)
  end.

(** One row of the [students] list of the bulk import, a [dict] of
    the request body whose name and email are strings.  The optional
    keys are read with [.get] and a default: [None] is a key that is
    not there.  The fee keys hold whatever the body gave them; nothing
    checks them before the arithmetic. *)
Record StudentRow := mkRow {
  row_name : string;
  row_email : string;
  row_phone : option string;
  row_total_fee : option Doc.value;
  row_discount : option Doc.value
}.

Record RowError := mkRowError {
  row : Z;
  email : string;
  error : string
}.

Record BulkReport := mkReport {
  message : string;
  enrolled : nat;
  errors : list RowError
}.

(** The fee part of one row, from [total_fee = student_data.get(...)]
    to the [FeeStructure] it builds: the structure to insert if the fee
    is positive, or the exception met on the way.  All of it runs
    before the insert, inside the [try] block of the row. *)
Definition fee_of_row (env : Env) (idx : nat) (batch_id : string)
  (batch : Batch.t) (student_id : string) (student_data : StudentRow)
  : PyNum.exception + option FeeStructure.t :=
  let total_fee :=
    match row_total_fee student_data with Some v => v | None => Doc.VInt 0 end in
  let discount :=
    match row_discount student_data with Some v => v | None => Doc.VInt 0 end in
  match PyNum.operands total_fee discount with
  | inl e => inl e
  | inr (total_fee, discount) =>
      match PyNum.sub total_fee discount with
      | inl e => inl e
      | inr pending =>
          if PyNum.gt0 total_fee then
            match PyNum.half pending with
            | inl e => inl e
            | inr per_installment =>
                match installment_list (utcnow env) per_installment 2 with
                | None => inl PyNum.date_out_of_range
                | Some installment_list =>
                    match PyNum.to_float total_fee, PyNum.to_float pending,
                          PyNum.to_float discount with
                    | inr total, inr pending_amount, inr discount_applied =>
                        inr (Some (FeeStructure.mk (uuid4 env (2 * idx + 1))
                                     student_id (Batch.course_id batch) batch_id
                                     total 0%float pending_amount
                                     installment_list discount_applied
                                     (utcnow env)))
                    | inl e, _, _ => inl e
                    | _, inl e, _ => inl e
                    | _, _, inl e => inl e
                    end
                end
            end
          else inr None
      end
  end.

(** The body of the [for idx, student_data in enumerate(students)] loop
    of [bulk_enroll_students].  [batch] is the document read once before
    the loop.  An exception of the fee part is caught by the
    [except Exception] of the row: the row is reported with [str(e)]
    and not counted, and the user and roster writes made before it
    stay.  Row [idx] draws [uuid4 env (2*idx)] for a new user and
    [uuid4 env (2*idx+1)] for a fee structure. *)
Fixpoint bulk_enroll_loop (env : Env) (batch_id : string) (batch : Batch.t)
  (idx : nat) (students : list StudentRow)
  (enrolled_count : nat) (errors : list RowError) : M (nat * list RowError) :=
  match students with
  | [] => ret (enrolled_count, errors)
  | student_data :: rest =>
      existing <- read (fun db =>
                    Mongo.find_one (User.by_email (row_email student_data)) (users db)) ;;
      student_id <-
        match existing with
        | Some existing => ret (User.id existing)
        | None =>
            let new_user :=
              User.mk (uuid4 env (2 * idx)) (row_name student_data)
                (row_email student_data)
                (match row_phone student_data with Some p => p | None => "" end)
                "student" "temp_password_change_required" (utcnow env) in
            write (on_users (Mongo.insert_one new_user)) ;;
            ret (User.id new_user)
        end ;;
      if Py.mem student_id (Batch.enrolled_students batch) then
        bulk_enroll_loop env batch_id batch (S idx) rest enrolled_count
          (errors ++ [mkRowError (Z.of_nat idx + 1) (row_email student_data)
                        "Already enrolled"])%list
      else
        write (on_batches (Mongo.update_one (Batch.by_id batch_id)
                 (Batch.with_enrolled_students (Mongo.addToSet student_id)))) ;;
        match fee_of_row env idx batch_id batch student_id student_data with
        | inl e =>
            bulk_enroll_loop env batch_id batch (S idx) rest enrolled_count
              (errors ++ [mkRowError (Z.of_nat idx + 1) (row_email student_data)
                            (PyNum.str e)])%list
        | inr None =>
            bulk_enroll_loop env batch_id batch (S idx) rest
              (S enrolled_count) errors
        | inr (Some fee) =>
            write (on_fee_structures (Mongo.insert_one fee)) ;;
            bulk_enroll_loop env batch_id batch (S idx) rest
              (S enrolled_count) errors
        end
  end.

(** [POST /enroll-bulk] *)
Definition bulk_enroll_students (env : Env) (batch_id : string)
  (students : list StudentRow) : M BulkReport :=
  batch <- read (fun db => Mongo.find_one (Batch.by_id batch_id) (batches db)) ;;
  match batch with
  | None => raise BatchNotFound
  | Some batch =>
      r <- bulk_enroll_loop env batch_id batch 0 students 0 [] ;;
      ret (mkReport ("Enrolled " ++ Py.str_nat (fst r) ++ " students")%string
             (fst r) (snd r))
  end.

End admin_routes.

(** ** [lms_routes.py] *)

Module lms_routes.

(** [POST /admin/batches/{batch_id}/enroll] *)
Definition enroll_student_in_batch (batch_id student_id : string) : M string :=
  batch <- read (fun db => Mongo.find_one (Batch.by_id batch_id) (batches db)) ;;
  match batch with
  | None => raise BatchNotFound
  | Some batch =>
      if Z.of_nat (List.length (Batch.enrolled_students batch)) >=? Batch.capacity batch
      then raise CapacityExceeded
      else
        write (on_batches (Mongo.update_one (Batch.by_id batch_id)
                 (Batch.with_enrolled_students (Mongo.addToSet student_id)))) ;;
        write (on_student_profiles
                 (Mongo.update_one (StudentProfile.by_user_id student_id)
                    (fun p => StudentProfile.mk (StudentProfile.user_id p)
                                (Mongo.addToSet (Batch.course_id batch)
                                   (StudentProfile.enrolled_courses p))
                                (Some batch_id) (StudentProfile.status p)))) ;;
        ret "Student enrolled successfully"
  end.

End lms_routes.

(** ** Derived notions the properties speak about *)

(** The batch invariant of the data model: no student twice in the
    roster, and no more students than [max_students]. *)
Definition roster_ok (b : Batch.t) : Prop :=
  NoDup (Batch.enrolled_students b) /\
  Z.of_nat (List.length (Batch.enrolled_students b)) <= Batch.capacity b.

(** Decidable form of [roster_ok]'s capacity half. *)
Definition within_capacity (b : Batch.t) : bool :=
  Z.of_nat (List.length (Batch.enrolled_students b)) <=? Batch.capacity b.

(** One [record_fee_payment] request. *)
Record PaymentCall := mkCall {
  call_env : Env;
  call_amount : float;
  call_method : string;
  call_transaction_id : option string;
  call_notes : option string
}.

Definition record_call (fee_structure_id : string) (c : PaymentCall)
  : M (string * string) :=
  admin_routes.record_fee_payment (call_env c) fee_structure_id
    (call_amount c) (call_method c) (call_transaction_id c) (call_notes c).

(** The database after a sequence of payment requests on one fee
    structure, served one after the other. *)
Definition record_payments (fee_structure_id : string)
  (calls : list PaymentCall) (db : DB) : DB :=
  fold_left (fun d c => snd (record_call fee_structure_id c d)) calls db.

Definition find_fee (fee_structure_id : string) (db : DB)
  : option FeeStructure.t :=
  Mongo.find_one (FeeStructure.by_id fee_structure_id) (fee_structures db).

Definition find_batch (batch_id : string) (db : DB) : option Batch.t :=
  Mongo.find_one (Batch.by_id batch_id) (batches db).

Definition find_profile (student_id : string) (db : DB)
  : option StudentProfile.t :=
  Mongo.find_one (StudentProfile.by_user_id student_id) (student_profiles db).

(** [paid_amount + pending_amount == total_fee - discount_applied] *)
Definition balanced (f : FeeStructure.t) : bool :=
  (FeeStructure.paid_amount f + FeeStructure.pending_amount f
   =? FeeStructure.total_fee f - FeeStructure.discount_applied f)%float.

(** [sum(i["amount"] for i in installments)] *)
Definition installments_total (f : FeeStructure.t) : float :=
  Py.sum (map Installment.amount (FeeStructure.installments f)).


(** The exception the fee part of a row raises, if it raises: it
    depends neither on the student nor on the number of the row. *)
Definition fee_exception (env : Env) (batch_id : string) (batch : Batch.t)
  (student_data : admin_routes.StudentRow) : option PyNum.exception :=
  match admin_routes.fee_of_row env 0 batch_id batch "" student_data with
  | inl e => Some e
  | inr _ => None
  end.


(** ** Concrete databases used as test inputs *)

Module Scenario.

Definition env : Env :=
  mkEnv 1700000000 "20231114" (fun n => ("3f2a9c1e-" ++ Py.str_nat n)%string).

Definition batch (max_students : Z) (roster : list string) : Batch.t :=
  Batch.mk "b1" "n5" "N5 Morning" "t1" (Some max_students) roster "upcoming".

(** One batch [b1] with the given capacity and roster, nothing else. *)
Definition db_with (max_students : Z) (roster : list string) : DB :=
  mkDB [batch max_students roster] [] [] [] [].

Definition profile (user : string) : StudentProfile.t :=
  StudentProfile.mk user [] None "active".

Definition user (id email : string) : User.t :=
  User.mk id id email "" "student" "x" 0.

(** [b1] holds [A] and is full; [B] is a registered student with a
    profile and no batch. *)
Definition db_full_with_B : DB :=
  mkDB [batch 1 ["A"]] [profile "A"; profile "B"]
       [user "A" "a@example.com"; user "B" "b@example.com"] [] [].

Definition row_B : admin_routes.StudentRow :=
  admin_routes.mkRow "B" "b@example.com" None None None.

(** A fee structure with the given amounts and no installments. *)
Definition fee (total discount paid pending : float) : FeeStructure.t :=
  FeeStructure.mk "f1" "A" "n5" "b1" total paid pending [] discount 0.

Definition db_fee (f : FeeStructure.t) : DB := mkDB [] [] [] [f] [].

(** Fee 10000 with discount 1000, nothing paid yet. *)
Definition db_unpaid : DB := db_fee (fee 10000 1000 0 9000).

(** The same structure after a payment of 5000. *)
Definition db_part_paid : DB := db_fee (fee 10000 1000 5000 4000).

(** A structure entered through [POST /fees/structure] whose first
    installment is already marked paid. *)
Definition fee_first_paid : FeeStructure.t :=
  FeeStructure.mk "f1" "A" "n5" "b1" 9000 3000 6000
    [Installment.mk 1 3000 100 (Some "paid");
     Installment.mk 2 3000 200 (Some "pending");
     Installment.mk 3 3000 300 None] 0 0.

Definition pay (amount : float) : PaymentCall :=
  mkCall env amount "cash" None None.

End Scenario.

(** * The handlers around the ledger core *)

(** ** Cursors of the driver *)

Module Motor.

(** [collection.find(filter)], in storage order *)
Definition find {D : Type} (filter : D -> bool) (c : list D) : list D :=
  List.filter filter c.

(** [cursor.to_list(n)] *)
Definition to_list {D : Type} (n : nat) (c : list D) : list D := firstn n c.

(** [update_many(filter, update)] *)
Definition update_many {D : Type} (filter : D -> bool) (update : D -> D)
  (c : list D) : list D :=
  map (fun d => if filter d then update d else d) c.

End Motor.

(** ** [lms_routes.py], admin routes *)

Module lms_admin_routes.

(** The body of [POST /admin/batches]; the dates are numbered by
    their day. *)
Record BatchCreate := mkBatchCreate {
  course_id : string;
  batch_name : string;
  teacher_id : string;
  start_date : Z;
  end_date : Z;
  schedule : list (string * Doc.value);
  max_students : Z
}.

(** [batch.dict()] of the [Batch] built from the body, key by key in
    the order of the fields of [Batch]: the two dates stay
    [datetime.date] values. *)
Definition batch_dict (env : Env) (batch_data : BatchCreate) : Doc.value :=
  Doc.VDict
    [("id", Doc.VStr (uuid4 env 0));
     ("course_id", Doc.VStr (course_id batch_data));
     ("batch_name", Doc.VStr (batch_name batch_data));
     ("teacher_id", Doc.VStr (teacher_id batch_data));
     ("start_date", Doc.VDate (start_date batch_data));
     ("end_date", Doc.VDate (end_date batch_data));
     ("schedule", Doc.VDict (schedule batch_data));
     ("max_students", Doc.VInt (max_students batch_data));
     ("enrolled_students", Doc.VList []);
     ("status", Doc.VStr "upcoming");
     ("created_at", Doc.VDatetime (utcnow env))].

(** [POST /admin/batches]: the [Batch] built from the body starts with
    an empty roster and the status "upcoming", and [insert_one] is
    given its [dict]; what the driver cannot encode is not caught. *)
Definition create_batch (env : Env) (batch_data : BatchCreate)
  : M (string * string) :=
  let batch :=
    Batch.mk (uuid4 env 0) (course_id batch_data) (batch_name batch_data)
      (teacher_id batch_data) (Some (max_students batch_data)) [] "upcoming" in
  if Bson.encodable (batch_dict env batch_data) then
    write (on_batches (Mongo.insert_one batch)) ;;
    ret ("Batch created successfully", Batch.id batch)
  else raise InternalServerError.

End lms_admin_routes.

(** ** [admin_routes.py], fee management *)

Module fee_management.

Definition user_by_id (i : string) (u : User.t) : bool := String.eqb (User.id u) i.

(** [{"pending_amount": {"$gt": 0}}] *)
Definition has_pending (f : FeeStructure.t) : bool :=
  (0 <? FeeStructure.pending_amount f)%float.

(** One entry of the answer of [get_pending_fees]. *)
Record PendingFee := mkPendingFee {
  student_id : string;
  student_name : string;
  student_email : string;
  student_phone : string;
  total_fee : float;
  paid_amount : float;
  pending_amount : float;
  installments : list Installment.t
}.

(** [GET /fees/pending] *)
Definition get_pending_fees : M (list PendingFee) :=
  fees <- read (fun db =>
            Motor.to_list 500 (Motor.find has_pending (fee_structures db))) ;;
  read (fun db =>
    flat_map
      (fun fee =>
         match Mongo.find_one (user_by_id (FeeStructure.student_id fee)) (users db) with
         | Some student =>
             [mkPendingFee (FeeStructure.student_id fee) (User.name student)
                (User.email student) (User.phone student)
                (FeeStructure.total_fee fee) (FeeStructure.paid_amount fee)
                (FeeStructure.pending_amount fee) (FeeStructure.installments fee)]
         | None => []
         end)
      fees).

End fee_management.

(** ** [admin_routes.py], teacher salary management *)

Module TeacherSalary.
(** [effective_from] is midnight of a day; the day stands for it. *)
Record t := mk {
  id : string;
  teacher_id : string;
  salary_type : string;
  base_amount : float;
  percentage : float;
  effective_from : string;
  status : string;
  created_at : Z
}.

(** [{"teacher_id": teacher, "status": "active"}] *)
Definition active_for (teacher : string) (s : t) : bool :=
  String.eqb (teacher_id s) teacher && String.eqb (status s) "active".

Definition deactivate (s : t) : t :=
  mk (id s) (teacher_id s) (salary_type s) (base_amount s) (percentage s)
     (effective_from s) "inactive" (created_at s).
End TeacherSalary.

Module salary_management.

(** [POST /salary/structure] *)
Definition set_teacher_salary (env : Env) (teacher_id salary_type : string)
  (base_amount percentage : float) (teacher_salaries : list TeacherSalary.t)
  : (string * string) * list TeacherSalary.t :=
  let deactivated :=
    Motor.update_many (TeacherSalary.active_for teacher_id)
      TeacherSalary.deactivate teacher_salaries in
  let salary :=
    TeacherSalary.mk (uuid4 env 0) teacher_id salary_type base_amount
      percentage (today env) "active" (utcnow env) in
  (("Salary structure set", TeacherSalary.id salary),
   Mongo.insert_one salary deactivated).

(** One [set_teacher_salary] request. *)
Record SalaryCall := mkSalaryCall {
  sc_env : Env;
  sc_teacher_id : string;
  sc_salary_type : string;
  sc_base_amount : float;
  sc_percentage : float
}.

Definition salary_call (c : SalaryCall) (teacher_salaries : list TeacherSalary.t)
  : (string * string) * list TeacherSalary.t :=
  set_teacher_salary (sc_env c) (sc_teacher_id c) (sc_salary_type c)
    (sc_base_amount c) (sc_percentage c) teacher_salaries.

(** The collection after a sequence of requests. *)
Definition set_teacher_salaries (calls : list SalaryCall)
  (teacher_salaries : list TeacherSalary.t) : list TeacherSalary.t :=
  fold_left (fun c call => snd (salary_call call c)) calls teacher_salaries.

End salary_management.

(** ** [lms_routes.py], assignments and progress *)

Module Assignment.
Record t := mk {
  id : string;
  batch_id : string;
  teacher_id : string;
  title : string;
  description : string;
  due_date : Z;
  total_marks : Z;
  attachments : list string;
  assignment_type : string;
  status : string;
  created_at : Z
}.
End Assignment.

Module AssignmentSubmission.
Record t := mk {
  id : string;
  assignment_id : string;
  student_id : string;
  submission_date : Z;
  attachments : list string;
  marks_obtained : option Z;
  feedback : option string;
  status : string
}.

(** [{"assignment_id": a, "student_id": s}] *)
Definition of_student (a s : string) (d : t) : bool :=
  String.eqb (assignment_id d) a && String.eqb (student_id d) s.
End AssignmentSubmission.

Module Progress.
Record t := mk {
  id : string;
  student_id : string;
  course_id : string;
  module_id : string;
  lesson_id : string;
  completed : bool;
  time_spent_minutes : Z
}.
End Progress.

Module lms_teacher_routes.

Record AssignmentCreate := mkAssignmentCreate {
  batch_id : string;
  title : string;
  description : string;
  due_date : Z;
  total_marks : Z;
  attachments : list string;
  assignment_type : string
}.

(** [POST /teacher/assignments].  [total_marks] is any [int] of the
    body; [insert_one] raises [OverflowError] on one beyond 8 bytes,
    nothing catches it, and no assignment is stored. *)
Definition create_assignment (env : Env) (assignment_data : AssignmentCreate)
  (teacher_id : string) (assignments : list Assignment.t)
  : (HTTPException + string * string) * list Assignment.t :=
  let assignment :=
    Assignment.mk (uuid4 env 0) (batch_id assignment_data) teacher_id
      (title assignment_data) (description assignment_data)
      (due_date assignment_data) (total_marks assignment_data)
      (attachments assignment_data) (assignment_type assignment_data)
      "active" (utcnow env) in
  if Bson.int64 (Assignment.total_marks assignment) then
    (inr ("Assignment created successfully", Assignment.id assignment),
     Mongo.insert_one assignment assignments)
  else (inl InternalServerError, assignments).

(** [PUT /teacher/assignments/{submission_id}/grade].  [marks] is any
    [int] of the query; [update_one] raises [OverflowError] on one
    beyond 8 bytes, nothing catches it, and the submission stays as it
    was. *)
Definition grade_assignment (submission_id : string) (marks : Z)
  (feedback : string) (assignment_submissions : list AssignmentSubmission.t)
  : (HTTPException + string) * list AssignmentSubmission.t :=
  if Bson.int64 marks then
    (inr "Assignment graded successfully",
     Mongo.update_one (fun s => String.eqb (AssignmentSubmission.id s) submission_id)
       (fun s => AssignmentSubmission.mk (AssignmentSubmission.id s)
                   (AssignmentSubmission.assignment_id s)
                   (AssignmentSubmission.student_id s)
                   (AssignmentSubmission.submission_date s)
                   (AssignmentSubmission.attachments s)
                   (Some marks) (Some feedback) "graded")
       assignment_submissions)
  else (inl InternalServerError, assignment_submissions).

(** A submission with the [student] entry the handler attaches. *)
Record SubmissionWithStudent := mkSubmissionWithStudent {
  submission : AssignmentSubmission.t;
  student_name : string;
  student_email : string
}.

(** The [for submission in submissions] loop of
    [get_assignment_submissions]: [student["name"]] on a student that is
    not found raises a [TypeError], which nothing catches. *)
Fixpoint attach_students (users : list User.t)
  (submissions : list AssignmentSubmission.t)
  : HTTPException + list SubmissionWithStudent :=
  match submissions with
  | [] => inr []
  | submission :: rest =>
      match Mongo.find_one
              (fun u => String.eqb (User.id u)
                          (AssignmentSubmission.student_id submission))
              users with
      | None => inl InternalServerError
      | Some student =>
          match attach_students users rest with
          | inl e => inl e
          | inr done =>
              inr (mkSubmissionWithStudent submission (User.name student)
                     (User.email student) :: done)
          end
      end
  end.

(** [GET /teacher/assignments/{assignment_id}/submissions] *)
Definition get_assignment_submissions (assignment_id : string) (db : DB)
  (assignment_submissions : list AssignmentSubmission.t)
  : HTTPException + list SubmissionWithStudent :=
  let submissions :=
    Motor.to_list 100
      (Motor.find
         (fun s => String.eqb (AssignmentSubmission.assignment_id s) assignment_id)
         assignment_submissions) in
  attach_students (users db) submissions.

End lms_teacher_routes.

Module lms_student_routes.

(** The body of a submission, read with [.get]. *)
Record SubmissionData := mkSubmissionData {
  sd_student_id : option string;
  sd_content : option string;
  sd_attachments : option (list string)
}.

Definition AlreadySubmitted := HTTP 400 "Assignment already submitted".

(** [POST /student/assignments/{assignment_id}/submit].  A body without
    [student_id] matches no stored submission and then fails the
    validation of [AssignmentSubmission], which nothing catches.  The
    model has no [content] field: the content is dropped. *)
Definition submit_assignment (env : Env) (assignment_id : string)
  (submission_data : SubmissionData)
  (assignment_submissions : list AssignmentSubmission.t)
  : (HTTPException + string) * list AssignmentSubmission.t :=
  let student_id := sd_student_id submission_data in
  let attachments :=
    match sd_attachments submission_data with Some a => a | None => [] end in
  let existing :=
    Mongo.find_one
      (fun d =>
         match student_id with
         | Some s => AssignmentSubmission.of_student assignment_id s d
         | None => false
         end)
      assignment_submissions in
  match existing with
  | Some _ => (inl AlreadySubmitted, assignment_submissions)
  | None =>
      match student_id with
      | None => (inl InternalServerError, assignment_submissions)
      | Some student_id =>
          let submission :=
            AssignmentSubmission.mk (uuid4 env 0) assignment_id student_id
              (utcnow env) attachments None None "pending" in
          (inr "Assignment submitted successfully",
           Mongo.insert_one submission assignment_submissions)
      end
  end.

(** What [get_student_assignments] returns: each assignment with the
    submission attached to it, and the key ["submissions"] when the
    student has a batch. *)
Record StudentAssignments := mkStudentAssignments {
  assignments : list (Assignment.t * option AssignmentSubmission.t);
  submissions : option (list AssignmentSubmission.t)
}.

(** [GET /student/assignments/{student_id}].  An empty [batch_id] is
    falsy, like a missing one. *)
Definition get_student_assignments (student_id : string) (db : DB)
  (all_assignments : list Assignment.t)
  (assignment_submissions : list AssignmentSubmission.t) : StudentAssignments :=
  match Mongo.find_one (StudentProfile.by_user_id student_id)
          (student_profiles db) with
  | None => mkStudentAssignments [] None
  | Some student_profile =>
      match StudentProfile.batch_id student_profile with
      | None => mkStudentAssignments [] None
      | Some batch_id =>
          if String.eqb batch_id "" then mkStudentAssignments [] None
          else
            let found :=
              Motor.to_list 100
                (Motor.find (fun a => String.eqb (Assignment.batch_id a) batch_id)
                   all_assignments) in
            let with_submission :=
              map (fun a =>
                     (a, Mongo.find_one
                           (AssignmentSubmission.of_student (Assignment.id a)
                              student_id)
                           assignment_submissions))
                  found in
            mkStudentAssignments with_submission
              (Some (flat_map
                       (fun a => match snd a with Some s => [s] | None => [] end)
                       with_submission))
      end
  end.

Record CourseProgress := mkCourseProgress {
  completed_lessons : Z;
  total_time_minutes : Z
}.

(** [k in d] on the items of a dict *)
Definition contains (k : string) (d : list (string * CourseProgress)) : bool :=
  existsb (fun kv => String.eqb (fst kv) k) d.

(** [d[k]] read, [None] for a missing key *)
Definition getitem (k : string) (d : list (string * CourseProgress))
  : option CourseProgress :=
  option_map snd (List.find (fun kv => String.eqb (fst kv) k) d).

(** An in-place change of [d[k]] *)
Definition change (k : string) (f : CourseProgress -> CourseProgress)
  (d : list (string * CourseProgress)) : list (string * CourseProgress) :=
  Mongo.update_one (fun kv => String.eqb (fst kv) k)
    (fun kv => (fst kv, f (snd kv))) d.

(** The body of the [for record in progress_records] loop. *)
Definition count_record (course_progress : list (string * CourseProgress))
  (record : Progress.t) : list (string * CourseProgress) :=
  let course_id := Progress.course_id record in
  let d1 :=
    if contains course_id course_progress then course_progress
    else (course_progress ++ [(course_id, mkCourseProgress 0 0)])%list in
  let d2 :=
    if Progress.completed record then
      change course_id
        (fun p => mkCourseProgress (completed_lessons p + 1) (total_time_minutes p))
        d1
    else d1 in
  change course_id
    (fun p => mkCourseProgress (completed_lessons p)
                (total_time_minutes p + Progress.time_spent_minutes record))
    d2.

(** [GET /student/progress/{student_id}] *)
Definition get_student_progress (student_id : string)
  (progress : list Progress.t) : list (string * CourseProgress) :=
  let progress_records :=
    Motor.to_list 500
      (Motor.find (fun r => String.eqb (Progress.student_id r) student_id)
         progress) in
  fold_left count_record progress_records [].

End lms_student_routes.

(** ** Notions the properties of these handlers speak about *)

(** The completed lessons of course [c] among the records. *)
Definition lessons_completed (c : string) (records : list Progress.t) : Z :=
  Z.of_nat (List.length
              (List.filter
                 (fun r => Progress.completed r
                           && String.eqb (Progress.course_id r) c)
                 records)).

(** The minutes spent on course [c] over the records. *)
Definition minutes_spent (c : string) (records : list Progress.t) : Z :=
  fold_right Z.add 0
    (map Progress.time_spent_minutes
       (List.filter (fun r => String.eqb (Progress.course_id r) c) records)).

(** The stored payment records of one fee structure, in storage order. *)
Definition payments_of (fee_structure_id : string) (db : DB)
  : list FeePayment.t :=
  Motor.find
    (fun p => String.eqb (FeePayment.fee_structure_id p) fee_structure_id)
    (fee_payments db).

(** One request that changes a roster: one of the three single-enroll
    handlers, or the removal. *)
Inductive RosterCall :=
| Enroll (batch_id student_id : string)
| EnrollWithFees (env : Env) (batch_id student_id : string)
    (total_fee discount : float) (installments : Z)
| EnrollInBatch (batch_id student_id : string)
| Remove (batch_id student_id : string).

(** The database a request leaves, whatever it answers. *)
Definition roster_call (c : RosterCall) (db : DB) : DB :=
  match c with
  | Enroll b s => snd (admin_routes.enroll_student b s db)
  | EnrollWithFees env b s total_fee discount installments =>
      snd (admin_routes.enroll_student_with_fees env b s total_fee discount
             installments db)
  | EnrollInBatch b s => snd (lms_routes.enroll_student_in_batch b s db)
  | Remove b s => snd (admin_routes.remove_student_from_batch b s db)
  end.

(** The database after a sequence of such requests. *)
Definition roster_calls (calls : list RosterCall) (db : DB) : DB :=
  fold_left (fun d c => roster_call c d) calls db.

(** The teachers named by a sequence of salary requests. *)
Definition teachers_of (calls : list salary_management.SalaryCall)
  : list string :=
  map salary_management.sc_teacher_id calls.

(** ** Inputs for the handlers around the core *)

Module Fixture.

(** A student document as [get_all_students] builds it: the profile,
    with its own ["_id"], sits under the key ["profile"]. *)
Definition student_with_profile : list (string * Doc.value) :=
  [("_id", Doc.VObjectId "65a1");
   ("id", Doc.VStr "A");
   ("profile", Doc.VDict [("_id", Doc.VObjectId "65a2");
                          ("user_id", Doc.VStr "A")])].

Definition env : Env :=
  mkEnv 1700000000 "20231114" (fun n => ("7c9e6679-" ++ Py.str_nat n)%string).

(** A batch from 2024-01-08 (day 19730) to 2024-07-05. *)
Definition n4_evening : lms_admin_routes.BatchCreate :=
  lms_admin_routes.mkBatchCreate "n4" "N4 Evening" "t2" 19730 19909
    [("days", Doc.VList [Doc.VStr "Mon"; Doc.VStr "Wed"]);
     ("time", Doc.VStr "18:00")] 25.

(** Batch [b1] with room, student [A] registered, no fee yet. *)
Definition db_registered : DB :=
  mkDB [Scenario.batch 30 []] [Scenario.profile "A"]
       [Scenario.user "A" "a@example.com"] [] [].

(** [A] owes 4000 out of 9000 on the only fee structure. *)
Definition db_owing : DB :=
  mkDB [Scenario.batch 30 ["A"]] [Scenario.profile "A"]
       [Scenario.user "A" "a@example.com"]
       [Scenario.fee 10000 1000 5000 4000] [].

Definition fixed (teacher : string) (amount : float)
  : salary_management.SalaryCall :=
  salary_management.mkSalaryCall env teacher "fixed" amount 0.

Definition homework : lms_teacher_routes.AssignmentCreate :=
  lms_teacher_routes.mkAssignmentCreate "b1" "Kanji 1" "Write each kanji"
    1700600000 20 [] "homework".

Definition submission_of (student : string) : lms_student_routes.SubmissionData :=
  lms_student_routes.mkSubmissionData (Some student) (Some "done") None.

(** [A] is enrolled in [b1] and the profile says so. *)
Definition db_enrolled : DB :=
  mkDB [Scenario.batch 30 ["A"]]
       [StudentProfile.mk "A" ["n5"] (Some "b1") "active"]
       [Scenario.user "A" "a@example.com"] [] [].

Definition row_new : admin_routes.StudentRow :=
  admin_routes.mkRow "C" "c@example.com" (Some "555")
    (Some (Doc.VInt 17999)) None.

(** The same row with the fee written as a string, as a CSV reader
    leaves it. *)
Definition row_fee_as_text : admin_routes.StudentRow :=
  admin_routes.mkRow "D" "d@example.com" None (Some (Doc.VStr "17999")) None.

End Fixture.

(** * Properties *)

(** ** The document store *)

Section MongoFacts.
Context {D : Type}.
Variables (filter : D -> bool) (update : D -> D).

Lemma update_one_no_match (c : list D) :
  Mongo.find_one filter c = None ->
  Mongo.update_one filter update c = c.
Proof.
  unfold Mongo.find_one.
  induction c as [|d r IH]; simpl; [reflexivity|].
  destruct (filter d); [discriminate|].
  intros H. now rewrite IH.
Qed.

Lemma update_one_map {E : Type} (g : D -> E) (c : list D) :
  (forall d, g (update d) = g d) ->
  map g (Mongo.update_one filter update c) = map g c.
Proof.
  intros Hg. induction c as [|d r IH]; simpl; [reflexivity|].
  destruct (filter d); simpl; [now rewrite Hg | now rewrite IH].
Qed.

(** The update keeps the key the filter looks at. *)
Hypothesis filter_update : forall d, filter (update d) = filter d.

Lemma find_one_update_one (c : list D) :
  Mongo.find_one filter (Mongo.update_one filter update c)
  = option_map update (Mongo.find_one filter c).
Proof.
  unfold Mongo.find_one.
  induction c as [|d r IH]; simpl; [reflexivity|].
  destruct (filter d) eqn:E; simpl.
  - now rewrite filter_update, E.
  - now rewrite E.
Qed.

Lemma update_one_idempotent (c : list D) :
  (forall d, update (update d) = update d) ->
  Mongo.update_one filter update (Mongo.update_one filter update c)
  = Mongo.update_one filter update c.
Proof.
  intros Hu. induction c as [|d r IH]; simpl; [reflexivity|].
  destruct (filter d) eqn:E; simpl.
  - now rewrite filter_update, E, Hu.
  - now rewrite E, IH.
Qed.
End MongoFacts.

Lemma mem_true_iff (x : string) (xs : list string) :
  Py.mem x xs = true <-> In x xs.
Proof.
  unfold Py.mem. rewrite existsb_exists. split.
  - intros [y [Hy E]]. apply String.eqb_eq in E. now subst.
  - intros H. exists x. split; [exact H | apply String.eqb_refl].
Qed.

Lemma pull_not_in (x : string) (xs : list string) : ~ In x (Mongo.pull x xs).
Proof.
  unfold Mongo.pull. intros H. apply filter_In in H. destruct H as [_ H].
  now rewrite String.eqb_refl in H.
Qed.

Lemma pull_idempotent (x : string) (xs : list string) :
  Mongo.pull x (Mongo.pull x xs) = Mongo.pull x xs.
Proof.
  unfold Mongo.pull. induction xs as [|y r IH]; simpl; [reflexivity|].
  destruct (negb (y =? x)%string) eqn:E; simpl; [rewrite E|]; now rewrite ?IH.
Qed.

Lemma addToSet_new (x : string) (xs : list string) :
  Py.mem x xs = false -> Mongo.addToSet x xs = (xs ++ [x])%list.
Proof. unfold Mongo.addToSet. now intros ->. Qed.

Lemma addToSet_In (x : string) (xs : list string) : In x (Mongo.addToSet x xs).
Proof.
  unfold Mongo.addToSet. destruct (Py.mem x xs) eqn:E.
  - now apply mem_true_iff.
  - apply in_or_app. right. now left.
Qed.

Lemma addToSet_NoDup (x : string) (xs : list string) :
  NoDup xs -> NoDup (Mongo.addToSet x xs).
Proof.
  intros H. unfold Mongo.addToSet. destruct (Py.mem x xs) eqn:E; [exact H|].
  apply NoDup_app; [exact H | repeat constructor; intros [] | ].
  intros y Hy [<-|[]]. apply mem_true_iff in Hy. congruence.
Qed.

Lemma addToSet_length (x : string) (xs : list string) :
  (List.length (Mongo.addToSet x xs) <= S (List.length xs))%nat.
Proof.
  unfold Mongo.addToSet. destruct (Py.mem x xs); [lia|].
  rewrite length_app. simpl. lia.
Qed.

Arguments Py.float_of_int : simpl never.
Arguments admin_routes.installment_list : simpl never.
Arguments admin_routes.fee_of_row : simpl never.

(** Unfolds the monad down to functions on the database. *)
Ltac run := unfold bind, read, write, ret, raise in *; simpl in *.

(** The ways through the fee part of [enroll_student_with_fees]. *)
Ltac fee_part total_fee installments :=
  destruct (0 <? total_fee)%float;
  [ destruct (installments =? 0);
    [ | destruct (Py.float_of_int installments);
        [ destruct (admin_routes.installment_list _ _ installments) | ] ]
  | ].

Lemma by_id_with_enrolled_students i f b :
  Batch.by_id i (Batch.with_enrolled_students f b) = Batch.by_id i b.
Proof. reflexivity. Qed.

(** ** Enrollment *)

Import admin_routes.

(** C5.  When the roster of the batch has reached [max_students], every
    single-enroll handler fails with "Batch is full" and writes nothing,
    whether or not the student is already in the roster: the capacity test
    comes before the membership test. *)
Theorem enroll_full_batch_capacity_exceeded
  (env : Env) (db : DB) (batch_id student_id : string) (b : Batch.t)
  (total_fee discount : float) (installments : Z) :
  find_batch batch_id db = Some b ->
  Batch.capacity b <= Z.of_nat (List.length (Batch.enrolled_students b)) ->
  enroll_student batch_id student_id db = (inl CapacityExceeded, db) /\
  enroll_student_with_fees env batch_id student_id total_fee discount
    installments db = (inl CapacityExceeded, db) /\
  lms_routes.enroll_student_in_batch batch_id student_id db
  = (inl CapacityExceeded, db).
Proof.
  unfold find_batch. intros Hb Hfull.
  assert ((Z.of_nat (List.length (Batch.enrolled_students b)) >=? Batch.capacity b)
          = true) as Hge by (apply Z.geb_le; lia).
  unfold enroll_student, enroll_student_with_fees,
    lms_routes.enroll_student_in_batch.
  run. rewrite Hb, Hge. auto.
Qed.

Lemma enroll_full_batch_capacity_exceeded_witness :
  Py.mem "A" (Batch.enrolled_students (Scenario.batch 2 ["A"; "B"])) = true /\
  enroll_student "b1" "A" (Scenario.db_with 2 ["A"; "B"])
  = (inl CapacityExceeded, Scenario.db_with 2 ["A"; "B"]) /\
  enroll_student_with_fees Scenario.env "b1" "A" 17999 0 2
    (Scenario.db_with 2 ["A"; "B"])
  = (inl CapacityExceeded, Scenario.db_with 2 ["A"; "B"]) /\
  lms_routes.enroll_student_in_batch "b1" "A" (Scenario.db_with 2 ["A"; "B"])
  = (inl CapacityExceeded, Scenario.db_with 2 ["A"; "B"]).
Proof.
  split; [reflexivity|].
  apply (enroll_full_batch_capacity_exceeded Scenario.env
           (Scenario.db_with 2 ["A"; "B"]) "b1" "A"
           (Scenario.batch 2 ["A"; "B"]) 17999 0 2).
  - reflexivity.
  - vm_compute. discriminate.
Defined.

(** What a successful enroll-with-fees call has checked and written. *)
Lemma enroll_student_with_fees_success
  (env : Env) (db db1 : DB) (batch_id student_id : string)
  (total_fee discount : float) (installments : Z) (r : string * string) :
  enroll_student_with_fees env batch_id student_id total_fee discount
    installments db = (inr r, db1) ->
  exists b,
    find_batch batch_id db = Some b /\
    Z.of_nat (List.length (Batch.enrolled_students b)) < Batch.capacity b /\
    Py.mem student_id (Batch.enrolled_students b) = false /\
    batches db1
    = Mongo.update_one (Batch.by_id batch_id)
        (Batch.with_enrolled_students (Mongo.addToSet student_id)) (batches db) /\
    student_profiles db1
    = Mongo.update_one_upsert (StudentProfile.by_user_id student_id)
        (fun p => StudentProfile.mk (StudentProfile.user_id p)
                    (Mongo.addToSet (Batch.course_id b)
                       (StudentProfile.enrolled_courses p))
                    (Some batch_id) "active")
        (StudentProfile.mk student_id [Batch.course_id b] (Some batch_id) "active")
        (student_profiles db).
Proof.
  unfold enroll_student_with_fees, find_batch. run.
  destruct (Mongo.find_one (Batch.by_id batch_id) (batches db)) as [b|];
    [|discriminate].
  destruct (Z.of_nat (List.length (Batch.enrolled_students b)) >=? Batch.capacity b)
    eqn:Hcap; [discriminate|].
  destruct (Py.mem student_id (Batch.enrolled_students b)) eqn:Hmem;
    [discriminate|].
  intros H. exists b.
  assert (Z.of_nat (List.length (Batch.enrolled_students b)) < Batch.capacity b)
    as Hlt.
  { destruct (Z.geb_spec (Z.of_nat (List.length (Batch.enrolled_students b)))
                (Batch.capacity b)); [discriminate | lia]. }
  fee_part total_fee installments;
    simpl in H; inversion H; subst; simpl; auto.
Qed.

(** C4, as the code has it.  On the enroll-with-fees path a successful
    call followed by a second call with the same batch and student makes
    the second call fail and write nothing: with "Student already enrolled
    in this batch" when the batch still has a free place after the first
    call, with "Batch is full" when the first call took the last place.
    The roster has grown by exactly one student. *)
Theorem enroll_with_fees_twice
  (env1 env2 : Env) (db db1 : DB) (batch_id student_id : string)
  (total_fee1 discount1 total_fee2 discount2 : float)
  (installments1 installments2 : Z) (r : string * string) :
  enroll_student_with_fees env1 batch_id student_id total_fee1 discount1
    installments1 db = (inr r, db1) ->
  exists b b1,
    find_batch batch_id db = Some b /\
    find_batch batch_id db1 = Some b1 /\
    List.length (Batch.enrolled_students b1)
    = S (List.length (Batch.enrolled_students b)) /\
    Z.of_nat (List.length (Batch.enrolled_students b1)) <= Batch.capacity b1 /\
    (Z.of_nat (List.length (Batch.enrolled_students b1)) < Batch.capacity b1 ->
     enroll_student_with_fees env2 batch_id student_id total_fee2 discount2
       installments2 db1 = (inl AlreadyEnrolled, db1)) /\
    (Z.of_nat (List.length (Batch.enrolled_students b1)) = Batch.capacity b1 ->
     enroll_student_with_fees env2 batch_id student_id total_fee2 discount2
       installments2 db1 = (inl CapacityExceeded, db1)).
Proof.
  intros H.
  destruct (enroll_student_with_fees_success _ _ _ _ _ _ _ _ _ H)
    as (b & Hb & Hlt & Hmem & Hbatches & _).
  remember (Batch.with_enrolled_students (Mongo.addToSet student_id) b) as b1
    eqn:Eb1.
  assert (find_batch batch_id db1 = Some b1) as Hb1.
  { unfold find_batch in *. rewrite Hbatches, find_one_update_one.
    - now rewrite Hb, Eb1.
    - intros d. apply by_id_with_enrolled_students. }
  assert (Batch.enrolled_students b1
          = (Batch.enrolled_students b ++ [student_id])%list) as Hroster.
  { subst b1. unfold Batch.with_enrolled_students. cbn [Batch.enrolled_students].
    now apply addToSet_new. }
  assert (Batch.capacity b1 = Batch.capacity b) as Hc by (now subst b1).
  assert (List.length (Batch.enrolled_students b1)
          = S (List.length (Batch.enrolled_students b))) as Hl.
  { rewrite Hroster, length_app. simpl. lia. }
  exists b, b1. split; [assumption|]. split; [assumption|].
  split; [assumption|]. split; [rewrite Hl, Hc; lia|].
  clear H. unfold enroll_student_with_fees. unfold find_batch in Hb1. run.
  rewrite Hb1. split; intros Hsize.
  - destruct (Z.geb_spec (Z.of_nat (List.length (Batch.enrolled_students b1)))
                (Batch.capacity b1)); [lia|].
    assert (Py.mem student_id (Batch.enrolled_students b1) = true) as ->.
    { apply mem_true_iff. rewrite Hroster. apply in_or_app. right. now left. }
    reflexivity.
  - destruct (Z.geb_spec (Z.of_nat (List.length (Batch.enrolled_students b1)))
                (Batch.capacity b1)); [reflexivity | lia].
Qed.

(** C4 as stated fails where the batch had exactly one free place: the
    second call is refused for capacity, not as a duplicate. *)
Lemma enroll_twice_last_place_is_capacity_error :
  let first :=
    enroll_student_with_fees Scenario.env "b1" "A" 0 0 2 (Scenario.db_with 1 []) in
  let second :=
    enroll_student_with_fees Scenario.env "b1" "A" 0 0 2 (snd first) in
  fst first = inr ("Student enrolled successfully", "b1") /\
  fst second = inl CapacityExceeded /\
  fst second <> inl AlreadyEnrolled.
Proof.
  cbv zeta. split; [reflexivity|]. split; [reflexivity|].
  vm_compute. discriminate.
Qed.

Lemma enroll_with_fees_twice_witness :
  enroll_student_with_fees Scenario.env "b1" "A" 17999 0 2 (Scenario.db_with 2 [])
  = (inr ("Student enrolled successfully", "b1"),
     snd (enroll_student_with_fees Scenario.env "b1" "A" 17999 0 2
            (Scenario.db_with 2 []))) /\
  exists b b1,
    find_batch "b1" (Scenario.db_with 2 []) = Some b /\
    find_batch "b1"
      (snd (enroll_student_with_fees Scenario.env "b1" "A" 17999 0 2
              (Scenario.db_with 2 []))) = Some b1 /\
    List.length (Batch.enrolled_students b1)
    = S (List.length (Batch.enrolled_students b)) /\
    Z.of_nat (List.length (Batch.enrolled_students b1)) <= Batch.capacity b1 /\
    (Z.of_nat (List.length (Batch.enrolled_students b1)) < Batch.capacity b1 ->
     enroll_student_with_fees Scenario.env "b1" "A" 17999 0 2
       (snd (enroll_student_with_fees Scenario.env "b1" "A" 17999 0 2
               (Scenario.db_with 2 [])))
     = (inl AlreadyEnrolled,
        snd (enroll_student_with_fees Scenario.env "b1" "A" 17999 0 2
               (Scenario.db_with 2 [])))) /\
    (Z.of_nat (List.length (Batch.enrolled_students b1)) = Batch.capacity b1 ->
     enroll_student_with_fees Scenario.env "b1" "A" 17999 0 2
       (snd (enroll_student_with_fees Scenario.env "b1" "A" 17999 0 2
               (Scenario.db_with 2 [])))
     = (inl CapacityExceeded,
        snd (enroll_student_with_fees Scenario.env "b1" "A" 17999 0 2
               (Scenario.db_with 2 [])))).
Proof.
  split; [reflexivity|].
  apply (enroll_with_fees_twice Scenario.env Scenario.env
           (Scenario.db_with 2 []) _ "b1" "A" 17999 0 17999 0 2 2
           ("Student enrolled successfully", "b1")).
  reflexivity.
Defined.

(** On the plain enroll path no membership test exists: the second call
    succeeds, and [$addToSet] keeps the roster at one entry. *)
Example enroll_student_twice_second_succeeds :
  let first := enroll_student "b1" "A" (Scenario.db_with 3 []) in
  let second := enroll_student "b1" "A" (snd first) in
  fst second = inr "Student enrolled successfully" /\
  find_batch "b1" (snd second) = Some (Scenario.batch 3 ["A"]).
Proof. split; reflexivity. Qed.

Lemma update_one_Forall {D : Type} (P : D -> Prop) (filter : D -> bool)
  (update : D -> D) (c : list D) :
  Forall P c ->
  (forall d, Mongo.find_one filter c = Some d -> P d -> P (update d)) ->
  Forall P (Mongo.update_one filter update c).
Proof.
  unfold Mongo.find_one.
  induction 1 as [|d r Hd Hr IH]; simpl; intros Hu; [constructor|].
  destruct (filter d) eqn:E.
  - constructor; [apply Hu; auto | exact Hr].
  - constructor; [exact Hd | apply IH, Hu].
Qed.

Lemma roster_ok_addToSet (student_id : string) (b : Batch.t) :
  roster_ok b ->
  Z.of_nat (List.length (Batch.enrolled_students b)) < Batch.capacity b ->
  roster_ok (Batch.with_enrolled_students (Mongo.addToSet student_id) b).
Proof.
  intros [Hnd Hcap] Hlt. split; simpl.
  - now apply addToSet_NoDup.
  - pose proof (addToSet_length student_id (Batch.enrolled_students b)).
    change (Batch.capacity (Batch.with_enrolled_students
                              (Mongo.addToSet student_id) b))
      with (Batch.capacity b). lia.
Qed.

(** The three single-enroll handlers keep the batch invariant on every
    batch of the database, whatever they answer. *)
Lemma single_enroll_preserves_roster_ok
  (env : Env) (db : DB) (batch_id student_id : string)
  (total_fee discount : float) (installments : Z) :
  Forall roster_ok (batches db) ->
  Forall roster_ok (batches (snd (enroll_student batch_id student_id db))) /\
  Forall roster_ok
    (batches (snd (enroll_student_with_fees env batch_id student_id total_fee
                     discount installments db))) /\
  Forall roster_ok
    (batches (snd (lms_routes.enroll_student_in_batch batch_id student_id db))).
Proof.
  intros Hok.
  assert (forall b, Mongo.find_one (Batch.by_id batch_id) (batches db) = Some b ->
            (Z.of_nat (List.length (Batch.enrolled_students b)) >=? Batch.capacity b)
            = false ->
            Forall roster_ok
              (Mongo.update_one (Batch.by_id batch_id)
                 (Batch.with_enrolled_students (Mongo.addToSet student_id))
                 (batches db))) as Hupd.
  { intros b Hb Hcap. apply update_one_Forall; [exact Hok|].
    intros d Hd Pd. rewrite Hb in Hd. inversion Hd; subst d.
    apply roster_ok_addToSet; [exact Pd|].
    destruct (Z.geb_spec (Z.of_nat (List.length (Batch.enrolled_students b)))
                (Batch.capacity b)); [discriminate | lia]. }
  unfold enroll_student, enroll_student_with_fees,
    lms_routes.enroll_student_in_batch. run.
  destruct (Mongo.find_one (Batch.by_id batch_id) (batches db)) as [b|] eqn:Hb;
    [|auto].
  destruct (Z.of_nat (List.length (Batch.enrolled_students b)) >=? Batch.capacity b)
    eqn:Hcap; [auto|].
  specialize (Hupd b eq_refl Hcap).
  split; [exact Hupd|]. split; [|exact Hupd].
  destruct (Py.mem student_id (Batch.enrolled_students b)); [exact Hok|].
  fee_part total_fee installments; simpl; exact Hupd.
Qed.

Lemma find_one_update_one_upsert {D : Type} (filter : D -> bool)
  (update : D -> D) (fresh : D) (c : list D) :
  (forall d, filter (update d) = filter d) ->
  filter fresh = true ->
  Mongo.find_one filter (Mongo.update_one_upsert filter update fresh c)
  = Some (match Mongo.find_one filter c with
          | Some d => update d
          | None => fresh
          end).
Proof.
  intros Hu Hfresh. unfold Mongo.update_one_upsert.
  destruct (existsb filter c) eqn:Hex.
  - rewrite find_one_update_one by exact Hu.
    destruct (Mongo.find_one filter c) as [d|] eqn:Hd; [reflexivity|].
    apply existsb_exists in Hex. destruct Hex as [x [Hx Hfx]].
    unfold Mongo.find_one in Hd.
    pose proof (find_none _ _ Hd x Hx). congruence.
  - unfold Mongo.find_one.
    assert (find filter c = None) as Hnone.
    { destruct (find filter c) as [d|] eqn:Hd; [|reflexivity].
      apply find_some in Hd. destruct Hd as [Hin Hfd].
      assert (existsb filter c = true) by (apply existsb_exists; eauto).
      congruence. }
    rewrite Hnone. clear Hex.
    induction c as [|d r IH]; simpl in *.
    + now rewrite Hfresh.
    + destruct (filter d); [discriminate | auto].
Qed.

(** The enroll-with-fees path, when it succeeds, leaves the student in
    the roster, the profile pointing at the batch, and the course of the
    batch among the enrolled courses. *)
Lemma enroll_with_fees_effects
  (env : Env) (db db1 : DB) (batch_id student_id : string)
  (total_fee discount : float) (installments : Z) (r : string * string) :
  enroll_student_with_fees env batch_id student_id total_fee discount
    installments db = (inr r, db1) ->
  exists b1 p,
    find_batch batch_id db1 = Some b1 /\
    In student_id (Batch.enrolled_students b1) /\
    find_profile student_id db1 = Some p /\
    StudentProfile.batch_id p = Some batch_id /\
    In (Batch.course_id b1) (StudentProfile.enrolled_courses p).
Proof.
  intros H.
  destruct (enroll_student_with_fees_success _ _ _ _ _ _ _ _ _ H)
    as (b & Hb & _ & _ & Hbatches & Hprofiles).
  unfold find_batch, find_profile in *.
  rewrite Hbatches, Hprofiles, find_one_update_one, Hb
    by (intros d; apply by_id_with_enrolled_students).
  rewrite find_one_update_one_upsert;
    [| reflexivity | apply String.eqb_refl].
  eexists. eexists. split; [reflexivity|]. split; [apply addToSet_In|].
  split; [reflexivity|].
  destruct (Mongo.find_one _ (student_profiles db)) as [p|]; simpl.
  - split; [reflexivity | apply addToSet_In].
  - split; [reflexivity | now left].
Qed.

(** The bulk loop never writes to [student_profiles]. *)
Lemma bulk_enroll_loop_keeps_profiles (env : Env) (batch_id : string)
  (batch : Batch.t) (students : list StudentRow) :
  forall idx enrolled_count errors db,
    student_profiles
      (snd (bulk_enroll_loop env batch_id batch idx students enrolled_count
              errors db))
    = student_profiles db.
Proof.
  induction students as [|s rest IH]; intros idx n errs db; [reflexivity|].
  cbn [bulk_enroll_loop]. run.
  destruct (Mongo.find_one (User.by_email (row_email s)) (users db)) as [u|];
    simpl.
  - destruct (Py.mem (User.id u) (Batch.enrolled_students batch)).
    + now rewrite IH.
    + destruct (fee_of_row _ _ _ _ _ _) as [e|[fee|]]; simpl; now rewrite IH.
  - destruct (Py.mem _ (Batch.enrolled_students batch)).
    + now rewrite IH.
    + destruct (fee_of_row _ _ _ _ _ _) as [e|[fee|]]; simpl; now rewrite IH.
Qed.

Lemma bulk_enroll_keeps_profiles (env : Env) (batch_id : string)
  (students : list StudentRow) (db : DB) :
  student_profiles (snd (bulk_enroll_students env batch_id students db))
  = student_profiles db.
Proof.
  unfold bulk_enroll_students. run.
  destruct (Mongo.find_one (Batch.by_id batch_id) (batches db)) as [b|];
    [|reflexivity].
  pose proof (bulk_enroll_loop_keeps_profiles env batch_id b students 0%nat
                0%nat [] db) as H.
  destruct (bulk_enroll_loop env batch_id b 0 students 0 [] db) as [[e|r] db'];
    exact H.
Qed.

(** C3 at the failing input.  Batch [b1] has room for one student and
    holds [A]; the bulk import, which never looks at [max_students], adds
    [B], and the roster is then larger than the capacity. *)
Theorem bulk_enroll_exceeds_capacity :
  let db := Scenario.db_full_with_B in
  let result := bulk_enroll_students Scenario.env "b1" [Scenario.row_B] db in
  find_batch "b1" db = Some (Scenario.batch 1 ["A"]) /\
  within_capacity (Scenario.batch 1 ["A"]) = true /\
  fst result = inr (mkReport "Enrolled 1 students" 1 []) /\
  find_batch "b1" (snd result) = Some (Scenario.batch 1 ["A"; "B"]) /\
  within_capacity (Scenario.batch 1 ["A"; "B"]) = false /\
  ~ roster_ok (Scenario.batch 1 ["A"; "B"]).
Proof.
  cbv zeta. repeat (split; [reflexivity|]).
  intros [_ H]. vm_compute in H. now apply H.
Qed.

(** C8 at the failing input.  After the bulk import has enrolled [B],
    who has a profile, [B] is in the roster but the profile still has no
    batch and no course: the bulk path writes neither. *)
Theorem bulk_enroll_leaves_profile_untouched :
  let db := Scenario.db_full_with_B in
  let result := bulk_enroll_students Scenario.env "b1" [Scenario.row_B] db in
  find_profile "B" db = Some (Scenario.profile "B") /\
  fst result = inr (mkReport "Enrolled 1 students" 1 []) /\
  (exists b, find_batch "b1" (snd result) = Some b /\
             In "B" (Batch.enrolled_students b)) /\
  (exists p, find_profile "B" (snd result) = Some p /\
             StudentProfile.batch_id p = None /\
             StudentProfile.enrolled_courses p = []).
Proof.
  cbv zeta. split; [reflexivity|]. split; [reflexivity|]. split.
  - exists (Scenario.batch 1 ["A"; "B"]). split; [reflexivity|].
    right. now left.
  - exists (Scenario.profile "B"). repeat split; reflexivity.
Qed.

(** C10.  Removing a student twice answers as removing once does and
    ends in the same database; afterwards the student is not in the
    roster and the profile has no batch; the enrolled courses of every
    profile and the whole fee ledger are as before. *)
Theorem remove_student_idempotent (db : DB) (batch_id student_id : string) :
  let once := remove_student_from_batch batch_id student_id db in
  let twice := remove_student_from_batch batch_id student_id (snd once) in
  fst once = inr "Student removed from batch" /\
  fst twice = inr "Student removed from batch" /\
  snd twice = snd once /\
  (forall b, find_batch batch_id (snd once) = Some b ->
             ~ In student_id (Batch.enrolled_students b)) /\
  (forall p, find_profile student_id (snd once) = Some p ->
             StudentProfile.batch_id p = None) /\
  map StudentProfile.enrolled_courses (student_profiles (snd once))
  = map StudentProfile.enrolled_courses (student_profiles db) /\
  fee_structures (snd once) = fee_structures db /\
  fee_payments (snd once) = fee_payments db.
Proof.
  cbv zeta. unfold remove_student_from_batch, find_batch, find_profile. run.
  split; [reflexivity|]. split; [reflexivity|]. split.
  { unfold on_student_profiles, on_batches. simpl. f_equal.
    - apply update_one_idempotent; [reflexivity|].
      intros b. unfold Batch.with_enrolled_students. simpl.
      now rewrite pull_idempotent.
    - apply update_one_idempotent; reflexivity. }
  split.
  { intros b. rewrite find_one_update_one by reflexivity.
    destruct (Mongo.find_one (Batch.by_id batch_id) (batches db)) as [b0|];
      simpl; [|discriminate].
    intros H. inversion H; subst b. simpl. apply pull_not_in. }
  split.
  { intros p. rewrite find_one_update_one by reflexivity.
    destruct (Mongo.find_one _ (student_profiles db)) as [p0|];
      simpl; [|discriminate].
    intros H. now inversion H. }
  split; [|split; reflexivity].
  now apply update_one_map.
Qed.

Lemma remove_student_idempotent_witness :
  find_batch "b1" (snd (remove_student_from_batch "b1" "A" Scenario.db_full_with_B))
  = Some (Scenario.batch 1 []) /\
  ~ In "A" (Batch.enrolled_students (Scenario.batch 1 [])).
Proof.
  split; [reflexivity|].
  apply (proj1 (proj2 (proj2 (proj2
           (remove_student_idempotent Scenario.db_full_with_B "b1" "A"))))).
  reflexivity.
Defined.

(** ** Fee ledger *)

(** [max(0, x)] is [x] when [x] is positive and [0] otherwise. *)
Lemma max0_cases (x : float) :
  ((0 <? x)%float = true /\ Py.max0 x = x) \/
  ((0 <? x)%float = false /\ Py.max0 x = 0%float).
Proof. unfold Py.max0. destruct (0 <? x)%float; auto. Qed.

Lemma max0_nonneg (x : float) : (0 <=? Py.max0 x)%float = true.
Proof.
  destruct (max0_cases x) as [[Hlt ->]|[_ ->]]; [|reflexivity].
  rewrite FloatAxioms.ltb_spec in Hlt. rewrite FloatAxioms.leb_spec.
  unfold SFltb in Hlt. unfold SFleb.
  destruct (SFcompare (Prim2SF 0) (Prim2SF x)) as [[]|]; congruence.
Qed.

(** A payment request on an existing fee structure: what is answered and
    what is written. *)
Lemma record_fee_payment_found
  (env : Env) (db : DB) (fee_structure_id : string) (amount : float)
  (payment_method : string) (transaction_id notes : option string)
  (f : FeeStructure.t) :
  find_fee fee_structure_id db = Some f ->
  exists receipt p,
    record_fee_payment env fee_structure_id amount payment_method
      transaction_id notes db
    = (inr ("Payment recorded", receipt),
       mkDB (batches db) (student_profiles db) (users db)
         (Mongo.update_one (FeeStructure.by_id fee_structure_id)
            (FeeStructure.set_amounts
               (FeeStructure.paid_amount f + amount)%float
               (Py.max0 (FeeStructure.pending_amount f - amount)%float))
            (fee_structures db))
         (fee_payments db ++ [p])) /\
    FeePayment.amount p = amount /\
    FeePayment.fee_structure_id p = fee_structure_id /\
    FeePayment.receipt_number p = receipt /\
    FeePayment.installment_number p
    = Z.of_nat (List.length (filter Installment.is_paid
                               (FeeStructure.installments f))) + 1.
Proof.
  unfold find_fee, record_fee_payment. run. intros ->.
  eexists. eexists. split; [reflexivity|]. repeat split.
Qed.

Lemma find_fee_after_payment
  (env : Env) (db : DB) (fee_structure_id : string) (amount : float)
  (payment_method : string) (transaction_id notes : option string)
  (f : FeeStructure.t) :
  find_fee fee_structure_id db = Some f ->
  find_fee fee_structure_id
    (snd (record_fee_payment env fee_structure_id amount payment_method
            transaction_id notes db))
  = Some (FeeStructure.set_amounts
            (FeeStructure.paid_amount f + amount)%float
            (Py.max0 (FeeStructure.pending_amount f - amount)%float) f).
Proof.
  intros Hf.
  destruct (record_fee_payment_found env db fee_structure_id amount
              payment_method transaction_id notes f Hf)
    as (receipt & p & -> & _).
  unfold find_fee in *. simpl.
  rewrite find_one_update_one by reflexivity. now rewrite Hf.
Qed.

(** C6.  A payment request on an existing fee structure succeeds, adds
    the amount to [paid_amount] and sets [pending_amount] to
    [max(0, pending_amount - amount)]: to [pending_amount - amount] while
    that is positive, and to 0 when the amount reaches or exceeds what is
    pending, in which case the request is still accepted. *)
Theorem record_payment_effect
  (env : Env) (db : DB) (fee_structure_id : string) (amount : float)
  (payment_method : string) (transaction_id notes : option string)
  (f : FeeStructure.t) :
  find_fee fee_structure_id db = Some f ->
  let result :=
    record_fee_payment env fee_structure_id amount payment_method
      transaction_id notes db in
  (exists receipt, fst result = inr ("Payment recorded", receipt)) /\
  exists f',
    find_fee fee_structure_id (snd result) = Some f' /\
    FeeStructure.paid_amount f' = (FeeStructure.paid_amount f + amount)%float /\
    FeeStructure.pending_amount f'
    = Py.max0 (FeeStructure.pending_amount f - amount)%float /\
    ((0 <? FeeStructure.pending_amount f - amount)%float = true ->
     FeeStructure.pending_amount f'
     = (FeeStructure.pending_amount f - amount)%float) /\
    ((0 <? FeeStructure.pending_amount f - amount)%float = false ->
     FeeStructure.pending_amount f' = 0%float).
Proof.
  intros Hf result. subst result. split.
  - destruct (record_fee_payment_found env db fee_structure_id amount
                payment_method transaction_id notes f Hf)
      as (receipt & p & -> & _).
    now exists receipt.
  - eexists. split; [apply find_fee_after_payment; exact Hf|].
    simpl. split; [reflexivity|]. split; [reflexivity|].
    split; intros Hcmp; unfold Py.max0; now rewrite Hcmp.
Qed.

Lemma record_payment_effect_witness :
  (find_fee "f1" Scenario.db_unpaid = Some (Scenario.fee 10000 1000 0 9000) /\
   (0 <? 9000 - 5000)%float = true /\
   let result :=
     record_fee_payment Scenario.env "f1" 5000 "upi" None None
       Scenario.db_unpaid in
   (exists receipt, fst result = inr ("Payment recorded", receipt)) /\
   exists f',
     find_fee "f1" (snd result) = Some f' /\
     FeeStructure.paid_amount f' = (0 + 5000)%float /\
     FeeStructure.pending_amount f' = Py.max0 (9000 - 5000)%float /\
     ((0 <? 9000 - 5000)%float = true ->
      FeeStructure.pending_amount f' = (9000 - 5000)%float) /\
     ((0 <? 9000 - 5000)%float = false ->
      FeeStructure.pending_amount f' = 0%float)) /\
  (find_fee "f1" Scenario.db_part_paid = Some (Scenario.fee 10000 1000 5000 4000) /\
   (0 <? 4000 - 6000)%float = false /\
   let result :=
     record_fee_payment Scenario.env "f1" 6000 "upi" None None
       Scenario.db_part_paid in
   (exists receipt, fst result = inr ("Payment recorded", receipt)) /\
   exists f',
     find_fee "f1" (snd result) = Some f' /\
     FeeStructure.paid_amount f' = (5000 + 6000)%float /\
     FeeStructure.pending_amount f' = Py.max0 (4000 - 6000)%float /\
     ((0 <? 4000 - 6000)%float = true ->
      FeeStructure.pending_amount f' = (4000 - 6000)%float) /\
     ((0 <? 4000 - 6000)%float = false ->
      FeeStructure.pending_amount f' = 0%float)).
Proof.
  split; (split; [reflexivity|]); (split; [reflexivity|]).
  - apply (record_payment_effect Scenario.env Scenario.db_unpaid "f1" 5000
             "upi" None None (Scenario.fee 10000 1000 0 9000)).
    reflexivity.
  - apply (record_payment_effect Scenario.env Scenario.db_part_paid "f1" 6000
             "upi" None None (Scenario.fee 10000 1000 5000 4000)).
    reflexivity.
Defined.

(** C7 as stated fails on the amount test: a payment of -100 on an
    existing structure is answered as recorded, a payment record is
    written, [paid_amount] goes down and [pending_amount] up. *)
Lemma negative_payment_is_recorded :
  let result :=
    record_fee_payment Scenario.env "f1" (-100) "cash" None None
      Scenario.db_unpaid in
  (-100 <=? 0)%float = true /\
  fst result = inr ("Payment recorded", "RCP202311143F2A9C") /\
  map FeePayment.amount (fee_payments (snd result)) = [(-100)%float] /\
  find_fee "f1" (snd result) = Some (Scenario.fee 10000 1000 (-100) 9100).
Proof. cbv zeta. repeat split; reflexivity. Qed.

(** C7, as the code has it.  A payment request on a fee structure that
    does not exist fails with "Fee structure not found" and writes nothing.
    No test is made on the amount: on an existing structure every amount,
    positive or not, is accepted and one payment record with that amount is
    appended. *)
Theorem record_payment_not_found_or_recorded
  (env : Env) (db : DB) (fee_structure_id : string) (amount : float)
  (payment_method : string) (transaction_id notes : option string) :
  (find_fee fee_structure_id db = None ->
   record_fee_payment env fee_structure_id amount payment_method
     transaction_id notes db = (inl FeeStructureNotFound, db)) /\
  (forall f, find_fee fee_structure_id db = Some f ->
     exists receipt p,
       fst (record_fee_payment env fee_structure_id amount payment_method
              transaction_id notes db) = inr ("Payment recorded", receipt) /\
       fee_payments (snd (record_fee_payment env fee_structure_id amount
                            payment_method transaction_id notes db))
       = (fee_payments db ++ [p])%list /\
       FeePayment.amount p = amount).
Proof.
  split.
  - unfold find_fee, record_fee_payment. run. now intros ->.
  - intros f Hf.
    destruct (record_fee_payment_found env db fee_structure_id amount
                payment_method transaction_id notes f Hf)
      as (receipt & p & -> & Hp & _).
    exists receipt, p. auto.
Qed.

Lemma record_payment_not_found_or_recorded_witness :
  find_fee "f2" Scenario.db_unpaid = None /\
  record_fee_payment Scenario.env "f2" 5000 "cash" None None Scenario.db_unpaid
  = (inl FeeStructureNotFound, Scenario.db_unpaid).
Proof.
  split; [reflexivity|].
  apply (proj1 (record_payment_not_found_or_recorded Scenario.env
                  Scenario.db_unpaid "f2" 5000 "cash" None None)).
  reflexivity.
Defined.

(** C9.  A payment request leaves the installments of every fee
    structure as they were, so no status becomes "paid"; the payment
    record it appends is numbered one more than the count of installments
    whose status is "paid". *)
Theorem record_payment_keeps_installments
  (env : Env) (db : DB) (fee_structure_id : string) (amount : float)
  (payment_method : string) (transaction_id notes : option string) :
  let result :=
    record_fee_payment env fee_structure_id amount payment_method
      transaction_id notes db in
  map FeeStructure.installments (fee_structures (snd result))
  = map FeeStructure.installments (fee_structures db) /\
  (forall f, find_fee fee_structure_id db = Some f ->
     exists p,
       fee_payments (snd result) = (fee_payments db ++ [p])%list /\
       FeePayment.installment_number p
       = Z.of_nat (List.length (filter Installment.is_paid
                                  (FeeStructure.installments f))) + 1).
Proof.
  cbv zeta. split.
  - unfold record_fee_payment. run.
    destruct (Mongo.find_one _ (fee_structures db)) as [f|]; [|reflexivity].
    simpl. now apply update_one_map.
  - intros f Hf.
    destruct (record_fee_payment_found env db fee_structure_id amount
                payment_method transaction_id notes f Hf)
      as (receipt & p & -> & _ & _ & _ & Hn).
    exists p. auto.
Qed.

Lemma record_payment_keeps_installments_witness :
  find_fee "f1" (Scenario.db_fee Scenario.fee_first_paid)
  = Some Scenario.fee_first_paid /\
  exists p,
    fee_payments
      (snd (record_fee_payment Scenario.env "f1" 3000 "cash" None None
              (Scenario.db_fee Scenario.fee_first_paid)))
    = ([] ++ [p])%list /\
    FeePayment.installment_number p
    = Z.of_nat (List.length (filter Installment.is_paid
                               (FeeStructure.installments
                                  Scenario.fee_first_paid))) + 1.
Proof.
  split; [reflexivity|].
  apply (proj2 (record_payment_keeps_installments Scenario.env
                  (Scenario.db_fee Scenario.fee_first_paid) "f1" 3000 "cash"
                  None None)).
  reflexivity.
Defined.

(** Two payments in a row carry the same number: the first did not mark
    an installment as paid. *)
Example two_payments_same_installment_number :
  map FeePayment.installment_number
    (fee_payments
       (record_payments "f1" [Scenario.pay 3000; Scenario.pay 3000]
          (Scenario.db_fee Scenario.fee_first_paid)))
  = [2; 2].
Proof. reflexivity. Qed.

(** C1 as stated fails on an overpayment.  The structure starts
    balanced with 9000 pending; after payments of 5000 and 6000 it holds
    11000 paid and 0 pending, which is not 10000 - 1000. *)
Lemma overpayment_breaks_balance :
  let db := record_payments "f1" [Scenario.pay 5000; Scenario.pay 6000]
              Scenario.db_unpaid in
  find_fee "f1" Scenario.db_unpaid = Some (Scenario.fee 10000 1000 0 9000) /\
  balanced (Scenario.fee 10000 1000 0 9000) = true /\
  find_fee "f1" db = Some (Scenario.fee 10000 1000 11000 0) /\
  balanced (Scenario.fee 10000 1000 11000 0) = false.
Proof. cbv zeta. repeat split; reflexivity. Qed.

(** Without any overpayment the equation can still fail, by the rounding
    of binary64: 12.34 paid out of 49.99. *)
Example rounding_breaks_balance :
  let f := Scenario.fee (4999 / 100) 0 0 (4999 / 100) in
  let db := record_payments "f1" [Scenario.pay (1234 / 100)] (Scenario.db_fee f) in
  balanced f = true /\
  (0 <? 4999 / 100 - 1234 / 100)%float = true /\
  option_map balanced (find_fee "f1" db) = Some false.
Proof. cbv zeta. repeat split; reflexivity. Qed.

Lemma find_fee_after_call (fee_structure_id : string) (c : PaymentCall)
  (db : DB) (f : FeeStructure.t) :
  find_fee fee_structure_id db = Some f ->
  find_fee fee_structure_id (snd (record_call fee_structure_id c db))
  = Some (FeeStructure.set_amounts
            (FeeStructure.paid_amount f + call_amount c)%float
            (Py.max0 (FeeStructure.pending_amount f - call_amount c)%float) f).
Proof. unfold record_call. apply find_fee_after_payment. Qed.

(** C1, as the code has it.  After each call of a sequence of payment
    requests on one fee structure, [pending_amount >= 0], and the total
    fee and the discount are as at the start.  A call whose amount leaves
    something pending moves that amount from pending to paid; any other
    call sets pending to 0 and still adds the whole amount to paid. *)
Theorem record_payments_pending_nonneg
  (fee_structure_id : string) (calls : list PaymentCall) (db : DB)
  (f : FeeStructure.t) :
  find_fee fee_structure_id db = Some f ->
  calls <> [] ->
  (exists f',
     find_fee fee_structure_id (record_payments fee_structure_id calls db)
     = Some f' /\
     (0 <=? FeeStructure.pending_amount f')%float = true /\
     FeeStructure.total_fee f' = FeeStructure.total_fee f /\
     FeeStructure.discount_applied f' = FeeStructure.discount_applied f) /\
  (forall c, exists f1,
     find_fee fee_structure_id (snd (record_call fee_structure_id c db))
     = Some f1 /\
     FeeStructure.paid_amount f1
     = (FeeStructure.paid_amount f + call_amount c)%float /\
     ((0 <? FeeStructure.pending_amount f - call_amount c)%float = true ->
      FeeStructure.pending_amount f1
      = (FeeStructure.pending_amount f - call_amount c)%float) /\
     ((0 <? FeeStructure.pending_amount f - call_amount c)%float = false ->
      FeeStructure.pending_amount f1 = 0%float)).
Proof.
  intros Hf Hcalls. split.
  - revert db f Hf Hcalls.
    induction calls as [|c rest IH]; intros db f Hf Hcalls; [congruence|].
    unfold record_payments. simpl.
    pose proof (find_fee_after_call fee_structure_id c db f Hf) as Hf1.
    destruct rest as [|c' rest'].
    + simpl. eexists. split; [exact Hf1|]. simpl.
      split; [apply max0_nonneg | split; reflexivity].
    + destruct (IH _ _ Hf1) as (f' & Hf' & Hnn & Ht & Hd); [discriminate|].
      exists f'. split; [exact Hf'|]. split; [exact Hnn|]. now split.
  - intros c. eexists. split; [apply find_fee_after_call; exact Hf|].
    simpl. split; [reflexivity|]. unfold Py.max0.
    split; intros ->; reflexivity.
Qed.

Lemma record_payments_pending_nonneg_witness :
  find_fee "f1" Scenario.db_unpaid = Some (Scenario.fee 10000 1000 0 9000) /\
  [Scenario.pay 5000; Scenario.pay 6000] <> [] /\
  exists f',
    find_fee "f1"
      (record_payments "f1" [Scenario.pay 5000; Scenario.pay 6000]
         Scenario.db_unpaid) = Some f' /\
    (0 <=? FeeStructure.pending_amount f')%float = true /\
    FeeStructure.total_fee f' = 10000%float /\
    FeeStructure.discount_applied f' = 1000%float.
Proof.
  split; [reflexivity|]. split; [discriminate|].
  apply (proj1 (record_payments_pending_nonneg "f1"
                  [Scenario.pay 5000; Scenario.pay 6000] Scenario.db_unpaid
                  (Scenario.fee 10000 1000 0 9000) eq_refl
                  ltac:(discriminate))).
Defined.

(** A finished schedule has one entry per index, numbered from 1, each
    carrying the same amount and marked pending. *)
Lemma installment_loop_entries (now : Z) (x : float) (indices : list Z) :
  forall l,
    installment_loop now x indices = Some l ->
    map Installment.amount l = repeat x (List.length indices) /\
    map Installment.installment_number l = map (fun i => i + 1) indices /\
    Forall (fun i => Installment.status i = Some "pending") l.
Proof.
  induction indices as [|i rest IH]; intros l; cbn [installment_loop].
  - intros H. inversion H. repeat split. constructor.
  - destruct (plus_days now (30 * (i + 1))) as [due|]; [|discriminate].
    destruct (installment_loop now x rest) as [l'|]; [|discriminate].
    intros H. inversion H. subst l. destruct (IH l' eq_refl) as (Ha & Hn & Hp).
    cbn [map repeat List.length Installment.amount
         Installment.installment_number].
    rewrite Ha, Hn. repeat split. now constructor.
Qed.



Lemma installment_list_pending (now : Z) (x : float) (n : Z)
  (l : list Installment.t) :
  installment_list now x n = Some l ->
  Forall (fun i => Installment.status i = Some "pending") l.
Proof.
  unfold installment_list. intros H.
  now apply installment_loop_entries in H.
Qed.






(** The two ways of [float_of_int] meet at [2^63], and an [int] at the
    edge of the floats does not convert. *)
Example float_of_int_values :
  map Py.float_of_int [3; -17999; 2 ^ 53 + 1; 2 ^ 63 - 1]
  = map (fun n => Py.nearest_float n 0) [3; -17999; 2 ^ 53 + 1; 2 ^ 63 - 1] /\
  Py.float_of_int (2 ^ 63) = Some 9223372036854775808%float /\
  Py.float_of_int (2 ^ 1024) = None /\
  Py.half_of_int 17999 = Some 8999.5%float.
Proof. vm_compute. repeat split; reflexivity. Qed.







(** The last installment number whose due date the calendar still has,
    with the clock of the scenario. *)
Example installment_97107_is_the_last :
  plus_days (utcnow Scenario.env) (30 * 97107) <> None /\
  plus_days (utcnow Scenario.env) (30 * 97108) = None.
Proof. split; [discriminate | reflexivity]. Qed.

(** The scenario of the specification: 10000 with a discount of 1000 in
    three installments gives 3000 three times, which sum to 9000. *)
Example three_installments_of_3000 :
  map (fun f => (map Installment.amount (FeeStructure.installments f),
                 installments_total f))
    (fee_structures
       (snd (enroll_student_with_fees Scenario.env "b1" "A" 10000 1000 3
               (Scenario.db_with 2 []))))
  = [([3000; 3000; 3000]%float, 9000%float)].
Proof. reflexivity. Qed.

(** The bulk import at the fee of its own documentation: 17999 gives
    two installments of 8999.5. *)
Example bulk_enroll_two_halves :
  map (fun f => (FeeStructure.total_fee f, FeeStructure.discount_applied f,
                 FeeStructure.pending_amount f,
                 map Installment.amount (FeeStructure.installments f),
                 map Installment.due_date (FeeStructure.installments f)))
    (fee_structures
       (snd (bulk_enroll_students Scenario.env "b1"
               [mkRow "C" "c@example.com" None (Some (Doc.VInt 17999))
                  (Some (Doc.VFloat 0))]
               (Scenario.db_with 30 []))))
  = [(17999%float, 0%float, 17999%float, [8999.5; 8999.5]%float,
      [1700000000 + 30 * 86400; 1700000000 + 60 * 86400])].
Proof. reflexivity. Qed.

(** The capacity scenario of the specification: a batch for two takes
    [A] and [B] and refuses [C], keeping the roster [A, B]. *)
Example third_student_refused :
  let db1 := snd (enroll_student "b1" "A" (Scenario.db_with 2 [])) in
  let db2 := snd (enroll_student "b1" "B" db1) in
  let third := enroll_student "b1" "C" db2 in
  find_batch "b1" db1 = Some (Scenario.batch 2 ["A"]) /\
  find_batch "b1" db2 = Some (Scenario.batch 2 ["A"; "B"]) /\
  fst third = inl CapacityExceeded /\
  snd third = db2.
Proof. cbv zeta. repeat split; reflexivity. Qed.

(** * The handlers around the ledger core *)

(** ** [serialize_doc] *)

(** Induction on documents through the lists they nest. *)
Lemma value_list_ind (P : Doc.value -> Prop) :
  (forall v, (forall items, v <> Doc.VList items) -> P v) ->
  (forall items, Forall P items -> P (Doc.VList items)) ->
  forall v, P v.
Proof.
  intros Hleaf Hlist. fix IH 1. intros v.
  destruct v as [| | | | | | | |items|entries];
    try (apply Hleaf; intros items' E; discriminate E).
  apply Hlist. induction items as [|d r IHr]; constructor; [apply IH | exact IHr].
Qed.

Lemma filter_not_id_idempotent (entries : list (string * Doc.value)) :
  List.filter (fun kv => negb (Doc.is_id kv))
    (List.filter (fun kv => negb (Doc.is_id kv)) entries)
  = List.filter (fun kv => negb (Doc.is_id kv)) entries.
Proof.
  induction entries as [|kv r IH]; simpl; [reflexivity|].
  destruct (negb (Doc.is_id kv)) eqn:E; simpl; [rewrite E|]; now rewrite ?IH.
Qed.

(** X1.  Serializing a serialized document changes nothing. *)
Theorem serialize_doc_idempotent (doc : Doc.value) :
  Doc.serialize_doc (Doc.serialize_doc doc) = Doc.serialize_doc doc.
Proof.
  induction doc as [v Hv|items IH] using value_list_ind.
  - destruct v; try reflexivity.
    + now elim (Hv items).
    + simpl. now rewrite filter_not_id_idempotent.
  - simpl. rewrite map_map. f_equal. apply map_ext_Forall. exact IH.
Qed.

(** X2.  In a serialized document no dict reached through lists has an
    ["_id"] key. *)
Theorem serialize_doc_no_id (doc : Doc.value) :
  Doc.no_id (Doc.serialize_doc doc) = true.
Proof.
  induction doc as [v Hv|items IH] using value_list_ind.
  - destruct v; try reflexivity.
    + now elim (Hv items).
    + simpl. apply negb_true_iff.
      destruct (existsb Doc.is_id _) eqn:E; [|reflexivity].
      apply existsb_exists in E. destruct E as [kv [Hin Hid]].
      apply filter_In in Hin. destruct Hin as [_ Hn]. now rewrite Hid in Hn.
  - simpl. apply forallb_forall. intros d Hd.
    apply in_map_iff in Hd. destruct Hd as [d0 [<- Hd0]].
    rewrite Forall_forall in IH. now apply IH.
Qed.

(** X3.  Of a dict only the ["_id"] item is dropped: every other key
    keeps its value as it is, also a value that is a document with an
    ["_id"] of its own. *)
Theorem serialize_doc_keeps_other_keys (entries : list (string * Doc.value)) :
  exists entries',
    Doc.serialize_doc (Doc.VDict entries) = Doc.VDict entries' /\
    Doc.get "_id" entries' = None /\
    forall k, k <> "_id" -> Doc.get k entries' = Doc.get k entries.
Proof.
  eexists. split; [reflexivity|]. unfold Doc.get. split.
  - induction entries as [|[k v] r IH]; simpl; [reflexivity|].
    unfold Doc.is_id at 1. simpl.
    destruct (String.eqb_spec k "_id"); simpl; [exact IH|].
    destruct (String.eqb_spec k "_id"); [contradiction | exact IH].
  - intros k Hk.
    induction entries as [|[k' v] r IH]; simpl; [reflexivity|].
    unfold Doc.is_id at 1. simpl.
    destruct (String.eqb_spec k' "_id"); simpl.
    + destruct (String.eqb_spec k' k); [congruence | exact IH].
    + destruct (String.eqb_spec k' k); [reflexivity | exact IH].
Qed.

Lemma serialize_doc_keeps_other_keys_witness :
  "profile" <> "_id" /\
  exists entries',
    Doc.serialize_doc (Doc.VDict Fixture.student_with_profile)
    = Doc.VDict entries' /\
    Doc.get "profile" entries'
    = Some (Doc.VDict [("_id", Doc.VObjectId "65a2");
                       ("user_id", Doc.VStr "A")]).
Proof.
  split; [discriminate|].
  destruct (serialize_doc_keeps_other_keys Fixture.student_with_profile)
    as (entries' & Hs & _ & Hk).
  exists entries'. split; [exact Hs|].
  rewrite (Hk "profile"); [reflexivity | discriminate].
Defined.

(** ** Batches *)

Lemma find_one_insert_one {D : Type} (filter : D -> bool) (doc : D)
  (c : list D) :
  Mongo.find_one filter (Mongo.insert_one doc c)
  = match Mongo.find_one filter c with
    | Some d => Some d
    | None => if filter doc then Some doc else None
    end.
Proof.
  unfold Mongo.find_one, Mongo.insert_one.
  induction c as [|d r IH]; simpl; [reflexivity|].
  destruct (filter d); [reflexivity | exact IH].
Qed.

(** X4.  [POST /admin/batches] of [lms_routes.py] stores no batch.  The
    document it hands to [insert_one] holds the start and end date as
    [datetime.date] values, which the driver cannot encode, whatever the
    body of the request: the answer is a server error and the database
    is unchanged.  An enrollment under the identifier drawn for the
    batch is then refused with "Batch not found" unless a batch had
    that identifier before. *)
Theorem create_batch_stores_nothing
  (env : Env) (batch_data : lms_admin_routes.BatchCreate) (db : DB)
  (student_id : string) :
  Bson.encodable (lms_admin_routes.batch_dict env batch_data) = false /\
  lms_admin_routes.create_batch env batch_data db
  = (inl InternalServerError, db) /\
  (find_batch (uuid4 env 0) db = None ->
   lms_routes.enroll_student_in_batch (uuid4 env 0) student_id
     (snd (lms_admin_routes.create_batch env batch_data db))
   = (inl BatchNotFound, db)).
Proof.
  assert (Bson.encodable (lms_admin_routes.batch_dict env batch_data) = false)
    as Hdate.
  { unfold lms_admin_routes.batch_dict.
    cbn [Bson.encodable forallb snd andb]. reflexivity. }
  assert (lms_admin_routes.create_batch env batch_data db
          = (inl InternalServerError, db)) as Hfail.
  { unfold lms_admin_routes.create_batch. now rewrite Hdate. }
  split; [exact Hdate|]. split; [exact Hfail|].
  intros Hfresh. rewrite Hfail. unfold find_batch in Hfresh.
  unfold lms_routes.enroll_student_in_batch. run. now rewrite Hfresh.
Qed.

Lemma create_batch_stores_nothing_witness :
  find_batch (uuid4 Fixture.env 0) (Scenario.db_with 2 ["A"]) = None /\
  lms_admin_routes.create_batch Fixture.env Fixture.n4_evening
    (Scenario.db_with 2 ["A"])
  = (inl InternalServerError, Scenario.db_with 2 ["A"]) /\
  lms_routes.enroll_student_in_batch (uuid4 Fixture.env 0) "B"
    (snd (lms_admin_routes.create_batch Fixture.env Fixture.n4_evening
            (Scenario.db_with 2 ["A"])))
  = (inl BatchNotFound, Scenario.db_with 2 ["A"]).
Proof.
  split; [reflexivity|].
  destruct (create_batch_stores_nothing Fixture.env Fixture.n4_evening
              (Scenario.db_with 2 ["A"]) "B") as (_ & Hfail & Hrefused).
  split; [exact Hfail | exact (Hrefused eq_refl)].
Defined.

(** ** Pending fees *)

Import fee_management.

(** The rows [get_pending_fees] answers on a database. *)
Lemma get_pending_fees_answer (db : DB) :
  get_pending_fees db
  = (inr (flat_map
            (fun fee =>
               match Mongo.find_one (user_by_id (FeeStructure.student_id fee))
                       (users db) with
               | Some student =>
                   [mkPendingFee (FeeStructure.student_id fee)
                      (User.name student) (User.email student)
                      (User.phone student) (FeeStructure.total_fee fee)
                      (FeeStructure.paid_amount fee)
                      (FeeStructure.pending_amount fee)
                      (FeeStructure.installments fee)]
               | None => []
               end)
            (Motor.to_list 500 (Motor.find has_pending (fee_structures db)))),
     db).
Proof. reflexivity. Qed.

Lemma flat_map_at_most_one {A B : Type} (f : A -> list B) (l : list A) :
  (forall a, (List.length (f a) <= 1)%nat) ->
  (List.length (flat_map f l) <= List.length l)%nat.
Proof.
  intros Hf. induction l as [|a r IH]; simpl; [lia|].
  rewrite length_app. specialize (Hf a). lia.
Qed.

Lemma in_to_list {D : Type} (n : nat) (c : list D) (d : D) :
  In d (Motor.to_list n c) -> In d c.
Proof.
  unfold Motor.to_list. revert c.
  induction n as [|n IH]; intros [|x r]; simpl; try tauto.
  intros [->|H]; [now left | right; now apply IH].
Qed.

(** X5.  [get_pending_fees] always answers, writes nothing and lists at
    most 500 rows.  Every row shows a stored fee structure with
    [pending_amount > 0] together with the registered user it belongs to. *)
Theorem get_pending_fees_rows (db : DB) :
  exists rows,
    get_pending_fees db = (inr rows, db) /\
    (List.length rows <= 500)%nat /\
    forall r, In r rows ->
      (0 <? pending_amount r)%float = true /\
      exists fee student,
        In fee (fee_structures db) /\
        In student (users db) /\
        User.id student = student_id r /\
        FeeStructure.student_id fee = student_id r /\
        FeeStructure.total_fee fee = total_fee r /\
        FeeStructure.paid_amount fee = paid_amount r /\
        FeeStructure.pending_amount fee = pending_amount r /\
        FeeStructure.installments fee = installments r /\
        User.name student = student_name r /\
        User.email student = student_email r /\
        User.phone student = student_phone r.
Proof.
  eexists. split; [apply get_pending_fees_answer|]. split.
  - etransitivity.
    + apply flat_map_at_most_one. intros fee.
      destruct (Mongo.find_one _ (users db)); simpl; lia.
    + unfold Motor.to_list. apply firstn_le_length.
  - intros r Hr. apply in_flat_map in Hr. destruct Hr as [fee [Hfee Hrow]].
    apply in_to_list in Hfee. unfold Motor.find in Hfee.
    apply filter_In in Hfee.
    destruct Hfee as [Hin Hpending].
    destruct (Mongo.find_one _ (users db)) as [student|] eqn:Hs; [|destruct Hrow].
    destruct Hrow as [<-|[]]. simpl. split; [exact Hpending|].
    unfold Mongo.find_one in Hs. apply find_some in Hs. destruct Hs as [Hu Hid].
    unfold user_by_id in Hid. apply String.eqb_eq in Hid.
    exists fee, student. repeat split; auto.
Qed.

Lemma filter_update_one_only {D : Type} (p q : D -> bool) (u : D -> D)
  (f : D) (c : list D) :
  (forall d, p (u d) = p d) ->
  Mongo.find_one q c = Some f ->
  List.filter p c = [f] ->
  List.filter p (Mongo.update_one q u c) = [u f].
Proof.
  intros Hp. unfold Mongo.find_one.
  induction c as [|d r IH]; simpl; [discriminate|].
  destruct (q d) eqn:Hq; simpl.
  - intros E. inversion E; subst d. rewrite Hp.
    destruct (p f) eqn:Hpf; intros H.
    + inversion H as [H1]. now rewrite H1.
    + assert (In f (List.filter p r)) as Hin by (rewrite H; now left).
      apply filter_In in Hin. destruct Hin as [_ Hin]. congruence.
  - intros Hf. destruct (p d) eqn:Hpd; intros H.
    + inversion H as [[H1 H2]]. subst d.
      apply find_some in Hf. destruct Hf as [Hin _].
      assert (In f (List.filter p r)) as Hin'
        by (apply filter_In; split; assumption).
      rewrite H2 in Hin'. destruct Hin'.
    + now apply IH.
Qed.

(** X6.  Once a payment reaches or exceeds what is pending on the only
    fee structure of a student, [get_pending_fees] no longer lists that
    student. *)
Theorem paid_off_student_not_listed
  (env : Env) (db : DB) (fee_structure_id : string) (amount : float)
  (payment_method : string) (transaction_id notes : option string)
  (f : FeeStructure.t) :
  find_fee fee_structure_id db = Some f ->
  List.filter
    (fun g => String.eqb (FeeStructure.student_id g) (FeeStructure.student_id f))
    (fee_structures db) = [f] ->
  (0 <? FeeStructure.pending_amount f - amount)%float = false ->
  exists rows,
    fst (get_pending_fees
           (snd (record_fee_payment env fee_structure_id amount payment_method
                   transaction_id notes db))) = inr rows /\
    forall r, In r rows -> student_id r <> FeeStructure.student_id f.
Proof.
  intros Hf Honly Hclear.
  destruct (record_fee_payment_found env db fee_structure_id amount
              payment_method transaction_id notes f Hf)
    as (receipt & p & -> & _).
  rewrite get_pending_fees_answer. eexists. split; [reflexivity|].
  intros r Hr Hs. cbn [fee_structures users snd] in Hr.
  apply in_flat_map in Hr. destruct Hr as [g [Hg Hrow]].
  apply in_to_list in Hg. unfold Motor.find in Hg. apply filter_In in Hg.
  destruct Hg as [Hin Hpending].
  assert (FeeStructure.student_id g = FeeStructure.student_id f) as Hsg.
  { destruct (Mongo.find_one _ (users db)); [|destruct Hrow].
    destruct Hrow as [<-|[]]. exact Hs. }
  assert (In g (List.filter
                  (fun g => String.eqb (FeeStructure.student_id g)
                              (FeeStructure.student_id f))
                  (Mongo.update_one (FeeStructure.by_id fee_structure_id)
                     (FeeStructure.set_amounts
                        (FeeStructure.paid_amount f + amount)%float
                        (Py.max0 (FeeStructure.pending_amount f - amount)%float))
                     (fee_structures db)))) as Hg.
  { apply filter_In. split; [exact Hin|]. now apply String.eqb_eq. }
  rewrite (filter_update_one_only _ _ _ f) in Hg;
    [| reflexivity | exact Hf | exact Honly].
  destruct Hg as [<-|[]].
  unfold has_pending, Py.max0 in Hpending. simpl in Hpending.
  rewrite Hclear in Hpending. discriminate Hpending.
Qed.

Lemma paid_off_student_not_listed_witness :
  find_fee "f1" Fixture.db_owing = Some (Scenario.fee 10000 1000 5000 4000) /\
  (0 <? 4000 - 4000)%float = false /\
  exists rows,
    fst (get_pending_fees
           (snd (record_fee_payment Fixture.env "f1" 4000 "upi" None None
                   Fixture.db_owing))) = inr rows /\
    forall r, In r rows -> student_id r <> "A".
Proof.
  split; [reflexivity|]. split; [reflexivity|].
  apply (paid_off_student_not_listed Fixture.env Fixture.db_owing "f1" 4000
           "upi" None None (Scenario.fee 10000 1000 5000 4000));
    reflexivity.
Defined.

(** What a successful enroll-with-fees call with a positive fee appends
    to the fee structures. *)
Lemma enroll_student_with_fees_new_structure
  (env : Env) (db db1 : DB) (batch_id student_id : string)
  (total_fee discount : float) (installments : Z) (r : string * string) :
  enroll_student_with_fees env batch_id student_id total_fee discount
    installments db = (inr r, db1) ->
  (0 <? total_fee)%float = true ->
  users db1 = users db /\
  fee_payments db1 = fee_payments db /\
  exists fee,
    fee_structures db1 = (fee_structures db ++ [fee])%list /\
    FeeStructure.id fee = uuid4 env 0 /\
    FeeStructure.student_id fee = student_id /\
    FeeStructure.batch_id fee = batch_id /\
    FeeStructure.total_fee fee = total_fee /\
    FeeStructure.paid_amount fee = 0%float /\
    FeeStructure.pending_amount fee = (total_fee - discount)%float.
Proof.
  unfold enroll_student_with_fees. run.
  destruct (Mongo.find_one (Batch.by_id batch_id) (batches db)) as [b|];
    [|discriminate].
  destruct (Z.of_nat (List.length (Batch.enrolled_students b)) >=? Batch.capacity b);
    [discriminate|].
  destruct (Py.mem student_id (Batch.enrolled_students b)); [discriminate|].
  intros H Hfee. rewrite Hfee in H.
  destruct (installments =? 0); simpl in H; [discriminate|].
  destruct (Py.float_of_int installments) as [divisor|]; simpl in H;
    [|discriminate].
  destruct (installment_list _ _ installments) as [l|]; simpl in H;
    [|discriminate].
  inversion H; subst. simpl. split; [reflexivity|]. split; [reflexivity|].
  eexists. split; [reflexivity|]. repeat split.
Qed.

(** X7.  After a successful enroll-with-fees call whose fee exceeds the
    discount, a registered student is listed by [get_pending_fees] with
    nothing paid and [total_fee - discount] pending, provided fewer than
    500 structures were pending before. *)
Theorem enrolled_student_is_listed_pending
  (env : Env) (db db1 : DB) (batch_id student_id : string)
  (total_fee discount : float) (installments : Z) (r : string * string)
  (student : User.t) :
  enroll_student_with_fees env batch_id student_id total_fee discount
    installments db = (inr r, db1) ->
  (0 <? total_fee)%float = true ->
  (0 <? total_fee - discount)%float = true ->
  Mongo.find_one (user_by_id student_id) (users db) = Some student ->
  (List.length (Motor.find has_pending (fee_structures db)) < 500)%nat ->
  exists rows row,
    get_pending_fees db1 = (inr rows, db1) /\
    In row rows /\
    fee_management.student_id row = student_id /\
    student_name row = User.name student /\
    fee_management.total_fee row = total_fee /\
    paid_amount row = 0%float /\
    pending_amount row = (total_fee - discount)%float.
Proof.
  intros H Hfee Hpending Hstudent Hfew.
  destruct (enroll_student_with_fees_new_structure _ _ _ _ _ _ _ _ _ H Hfee)
    as (Husers & _ & fee & Hfs & _ & Hsid & _ & Htf & Hpaid & Hpend).
  rewrite get_pending_fees_answer. eexists. eexists.
  split; [reflexivity|]. split.
  - apply in_flat_map. exists fee. split.
    + unfold Motor.to_list, Motor.find. rewrite Hfs, filter_app.
      cbn [List.filter]. unfold has_pending at 2. rewrite Hpend, Hpending.
      rewrite firstn_app. apply in_or_app. right.
      unfold Motor.find in Hfew.
      destruct (500 - List.length (List.filter has_pending (fee_structures db)))%nat
        as [|k] eqn:E; [lia|]. now left.
    + rewrite Husers, Hsid, Hstudent. now left.
  - simpl. auto.
Qed.

Lemma enrolled_student_is_listed_pending_witness :
  enroll_student_with_fees Fixture.env "b1" "A" 10000 1000 3 Fixture.db_registered
  = (inr ("Student enrolled successfully", "b1"),
     snd (enroll_student_with_fees Fixture.env "b1" "A" 10000 1000 3
            Fixture.db_registered)) /\
  exists rows row,
    get_pending_fees
      (snd (enroll_student_with_fees Fixture.env "b1" "A" 10000 1000 3
              Fixture.db_registered))
    = (inr rows,
       snd (enroll_student_with_fees Fixture.env "b1" "A" 10000 1000 3
              Fixture.db_registered)) /\
    In row rows /\
    student_id row = "A" /\
    student_name row = User.name (Scenario.user "A" "a@example.com") /\
    total_fee row = 10000%float /\
    paid_amount row = 0%float /\
    pending_amount row = (10000 - 1000)%float.
Proof.
  split; [reflexivity|].
  apply (enrolled_student_is_listed_pending Fixture.env Fixture.db_registered _
           "b1" "A" 10000 1000 3 ("Student enrolled successfully", "b1")
           (Scenario.user "A" "a@example.com")).
  - reflexivity.
  - reflexivity.
  - reflexivity.
  - reflexivity.
  - vm_compute. lia.
Defined.

(** ** Learning progress *)

Import lms_student_routes.

Lemma getitem_change (k k' : string) (f : CourseProgress -> CourseProgress)
  (d : list (string * CourseProgress)) :
  getitem k (change k' f d)
  = if String.eqb k' k then option_map f (getitem k d) else getitem k d.
Proof.
  unfold getitem, change.
  induction d as [|[k0 v] r IH]; simpl; [now destruct (k' =? k)%string|].
  destruct (String.eqb_spec k0 k'); simpl.
  - subst k0. destruct (String.eqb_spec k' k); simpl; reflexivity.
  - destruct (String.eqb_spec k0 k); simpl; [|exact IH].
    subst k0. destruct (String.eqb_spec k' k); [congruence | reflexivity].
Qed.

Lemma getitem_new_key (k k' : string) (v : CourseProgress)
  (d : list (string * CourseProgress)) :
  getitem k (d ++ [(k', v)])
  = match getitem k d with
    | Some x => Some x
    | None => if String.eqb k' k then Some v else None
    end.
Proof.
  unfold getitem.
  induction d as [|[k0 v0] r IH]; simpl; [now destruct (k' =? k)%string|].
  destruct (k0 =? k)%string; [reflexivity | exact IH].
Qed.

Lemma contains_getitem (k : string) (d : list (string * CourseProgress)) :
  contains k d = match getitem k d with Some _ => true | None => false end.
Proof.
  unfold contains, getitem.
  induction d as [|[k0 v0] r IH]; simpl; [reflexivity|].
  destruct (k0 =? k)%string; [reflexivity | exact IH].
Qed.

(** What one record does to the entry of course [c]. *)
Lemma getitem_count_record (c : string) (d : list (string * CourseProgress))
  (r : Progress.t) :
  getitem c (count_record d r)
  = if String.eqb (Progress.course_id r) c then
      let p := match getitem c d with
               | Some p => p
               | None => mkCourseProgress 0 0
               end in
      Some (mkCourseProgress
              (completed_lessons p + if Progress.completed r then 1 else 0)
              (total_time_minutes p + Progress.time_spent_minutes r))
    else getitem c d.
Proof.
  unfold count_record. rewrite getitem_change.
  destruct (String.eqb_spec (Progress.course_id r) c) as [E|E].
  - rewrite E, contains_getitem.
    destruct (Progress.completed r).
    + rewrite getitem_change, String.eqb_refl.
      destruct (getitem c d) as [p|] eqn:Hp; simpl.
      * now rewrite Hp.
      * now rewrite getitem_new_key, Hp, String.eqb_refl.
    + destruct (getitem c d) as [p|] eqn:Hp; simpl.
      * rewrite Hp. simpl. now rewrite Z.add_0_r.
      * rewrite getitem_new_key, Hp, String.eqb_refl. reflexivity.
  - destruct (Progress.completed r).
    + rewrite getitem_change.
      destruct (String.eqb_spec (Progress.course_id r) c); [contradiction|].
      destruct (contains _ d); [reflexivity|].
      rewrite getitem_new_key.
      destruct (getitem c d); [reflexivity|].
      destruct (String.eqb_spec (Progress.course_id r) c);
        [contradiction | reflexivity].
    + destruct (contains _ d); [reflexivity|].
      rewrite getitem_new_key.
      destruct (getitem c d); [reflexivity|].
      destruct (String.eqb_spec (Progress.course_id r) c);
        [contradiction | reflexivity].
Qed.

Lemma lessons_completed_cons (c : string) (r : Progress.t)
  (rest : list Progress.t) :
  lessons_completed c (r :: rest)
  = (if Progress.completed r && String.eqb (Progress.course_id r) c
     then 1 else 0) + lessons_completed c rest.
Proof.
  unfold lessons_completed. cbn [List.filter].
  destruct (Progress.completed r && _); [|reflexivity].
  cbn [List.length]. lia.
Qed.

Lemma minutes_spent_cons (c : string) (r : Progress.t)
  (rest : list Progress.t) :
  minutes_spent c (r :: rest)
  = (if String.eqb (Progress.course_id r) c
     then Progress.time_spent_minutes r else 0) + minutes_spent c rest.
Proof.
  unfold minutes_spent. cbn [List.filter].
  destruct (Progress.course_id r =? c)%string; reflexivity.
Qed.

Lemma getitem_fold_count_record (c : string) (records : list Progress.t) :
  forall d,
    getitem c (fold_left count_record records d)
    = match getitem c d with
      | Some p =>
          Some (mkCourseProgress
                  (completed_lessons p + lessons_completed c records)
                  (total_time_minutes p + minutes_spent c records))
      | None =>
          if existsb (fun r => String.eqb (Progress.course_id r) c) records
          then Some (mkCourseProgress (lessons_completed c records)
                       (minutes_spent c records))
          else None
      end.
Proof.
  induction records as [|r rest IH]; intros d.
  - cbn [fold_left existsb]. destruct (getitem c d) as [[cl tt]|]; [|reflexivity].
    unfold lessons_completed, minutes_spent. simpl. now rewrite !Z.add_0_r.
  - cbn [fold_left existsb].
    rewrite IH, getitem_count_record, lessons_completed_cons, minutes_spent_cons.
    destruct (String.eqb_spec (Progress.course_id r) c) as [E|E].
    + rewrite andb_true_r. cbn [orb].
      destruct (getitem c d) as [p|]; cbv zeta;
        cbn [completed_lessons total_time_minutes];
        destruct (Progress.completed r); f_equal; f_equal; lia.
    + rewrite andb_false_r. cbn [orb].
      destruct (getitem c d) as [p|]; [f_equal; f_equal; lia|].
      destruct (existsb _ rest); [f_equal; f_equal; lia | reflexivity].
Qed.

Lemma change_keys (k : string) (f : CourseProgress -> CourseProgress)
  (d : list (string * CourseProgress)) :
  map fst (change k f d) = map fst d.
Proof. unfold change. now apply update_one_map. Qed.

Lemma count_record_keys_NoDup (d : list (string * CourseProgress))
  (r : Progress.t) :
  NoDup (map fst d) -> NoDup (map fst (count_record d r)).
Proof.
  intros Hd. unfold count_record. rewrite change_keys.
  assert (NoDup (map fst
                   (if contains (Progress.course_id r) d then d
                    else (d ++ [(Progress.course_id r, mkCourseProgress 0 0)])%list)))
    as H1.
  { destruct (contains (Progress.course_id r) d) eqn:Hc; [exact Hd|].
    rewrite map_app. simpl.
    apply NoDup_app; [exact Hd | repeat constructor; intros [] |].
    intros k Hk [<-|[]]. unfold contains in Hc.
    assert (existsb (fun kv => String.eqb (fst kv) (Progress.course_id r)) d
            = true) as Ht; [|congruence].
    apply in_map_iff in Hk. destruct Hk as [kv [Hkv Hin]].
    apply existsb_exists. exists kv. split; [exact Hin|].
    rewrite Hkv. apply String.eqb_refl. }
  destruct (Progress.completed r); [rewrite change_keys|]; exact H1.
Qed.

(** X8.  [get_student_progress] answers one entry per course among the
    first 500 records of the student, and for each such course the number
    of its completed records and the sum of its minutes; a course without
    a record has no entry. *)
Theorem get_student_progress_per_course (student_id : string)
  (progress : list Progress.t) (c : string) :
  let records :=
    Motor.to_list 500
      (Motor.find (fun r => String.eqb (Progress.student_id r) student_id)
         progress) in
  NoDup (map fst (get_student_progress student_id progress)) /\
  getitem c (get_student_progress student_id progress)
  = if existsb (fun r => String.eqb (Progress.course_id r) c) records
    then Some (mkCourseProgress (lessons_completed c records)
                 (minutes_spent c records))
    else None.
Proof.
  cbv zeta. unfold get_student_progress. split.
  - generalize (Motor.to_list 500
                  (Motor.find
                     (fun r => String.eqb (Progress.student_id r) student_id)
                     progress)).
    intros records.
    assert (NoDup (map fst (@nil (string * CourseProgress)))) as H0
      by constructor.
    revert H0. generalize (@nil (string * CourseProgress)).
    induction records as [|r rest IH]; intros d Hd; simpl; [exact Hd|].
    apply IH. now apply count_record_keys_NoDup.
  - now rewrite getitem_fold_count_record.
Qed.

(** ** Teacher salaries *)

Import salary_management.

Lemma active_for_deactivated (teacher teacher' : string) (s : TeacherSalary.t) :
  TeacherSalary.active_for teacher'
    (if TeacherSalary.active_for teacher s then TeacherSalary.deactivate s else s)
  = if String.eqb teacher' teacher then false
    else TeacherSalary.active_for teacher' s.
Proof.
  destruct (TeacherSalary.active_for teacher s) eqn:Ha.
  - unfold TeacherSalary.active_for in *. simpl.
    apply andb_true_iff in Ha. destruct Ha as [Ht _].
    apply String.eqb_eq in Ht. rewrite Ht, andb_false_r.
    rewrite (String.eqb_sym teacher teacher').
    now destruct (teacher' =? teacher)%string.
  - destruct (String.eqb_spec teacher' teacher) as [->|]; [exact Ha | reflexivity].
Qed.

Lemma active_for_other (teacher teacher' : string) (s : TeacherSalary.t) :
  teacher' <> teacher ->
  TeacherSalary.active_for teacher' s = true ->
  TeacherSalary.active_for teacher s = false.
Proof.
  unfold TeacherSalary.active_for. intros Hne Ha.
  apply andb_true_iff in Ha. destruct Ha as [Ht _].
  apply String.eqb_eq in Ht.
  destruct (String.eqb_spec (TeacherSalary.teacher_id s) teacher);
    [congruence | reflexivity].
Qed.

Lemma active_after_deactivation (teacher teacher' : string)
  (c : list TeacherSalary.t) :
  Motor.find (TeacherSalary.active_for teacher')
    (Motor.update_many (TeacherSalary.active_for teacher)
       TeacherSalary.deactivate c)
  = if String.eqb teacher' teacher then []
    else Motor.find (TeacherSalary.active_for teacher') c.
Proof.
  unfold Motor.find, Motor.update_many.
  induction c as [|s r IH]; cbn [map List.filter];
    [now destruct (teacher' =? teacher)%string|].
  rewrite active_for_deactivated, IH.
  destruct (String.eqb_spec teacher' teacher) as [E|E]; [reflexivity|].
  destruct (TeacherSalary.active_for teacher' s) eqn:Ha; [|reflexivity].
  now rewrite (active_for_other teacher teacher' s E Ha).
Qed.

Lemma set_teacher_salary_active (env : Env) (teacher salary_type : string)
  (base_amount percentage : float) (c : list TeacherSalary.t)
  (teacher' : string) :
  Motor.find (TeacherSalary.active_for teacher')
    (snd (set_teacher_salary env teacher salary_type base_amount percentage c))
  = if String.eqb teacher' teacher then
      [TeacherSalary.mk (uuid4 env 0) teacher salary_type base_amount
         percentage (today env) "active" (utcnow env)]
    else Motor.find (TeacherSalary.active_for teacher') c.
Proof.
  unfold set_teacher_salary, Mongo.insert_one. cbn [snd].
  unfold Motor.find at 1. rewrite filter_app.
  change (List.filter (TeacherSalary.active_for teacher')
            (Motor.update_many (TeacherSalary.active_for teacher)
               TeacherSalary.deactivate c))
    with (Motor.find (TeacherSalary.active_for teacher')
            (Motor.update_many (TeacherSalary.active_for teacher)
               TeacherSalary.deactivate c)).
  rewrite active_after_deactivation. cbn [List.filter].
  assert (TeacherSalary.active_for teacher'
            (TeacherSalary.mk (uuid4 env 0) teacher salary_type base_amount
               percentage (today env) "active" (utcnow env))
          = String.eqb teacher' teacher) as ->.
  { unfold TeacherSalary.active_for. simpl.
    now rewrite andb_true_r, String.eqb_sym. }
  destruct (teacher' =? teacher)%string; [reflexivity | now rewrite app_nil_r].
Qed.

(** X9.  After [set_teacher_salary] the teacher has exactly one active
    salary structure, the new one, and a lookup of the active structure
    finds it.  The active structures of every other teacher are as
    before, and no stored structure is deleted. *)
Theorem set_teacher_salary_one_active
  (env : Env) (teacher salary_type : string) (base_amount percentage : float)
  (c : list TeacherSalary.t) :
  let after :=
    snd (set_teacher_salary env teacher salary_type base_amount percentage c) in
  let salary :=
    TeacherSalary.mk (uuid4 env 0) teacher salary_type base_amount percentage
      (today env) "active" (utcnow env) in
  Motor.find (TeacherSalary.active_for teacher) after = [salary] /\
  Mongo.find_one (TeacherSalary.active_for teacher) after = Some salary /\
  (forall other, other <> teacher ->
     Motor.find (TeacherSalary.active_for other) after
     = Motor.find (TeacherSalary.active_for other) c) /\
  map TeacherSalary.id after = (map TeacherSalary.id c ++ [uuid4 env 0])%list.
Proof.
  cbv zeta.
  assert (Motor.find (TeacherSalary.active_for teacher)
            (snd (set_teacher_salary env teacher salary_type base_amount
                    percentage c))
          = [TeacherSalary.mk (uuid4 env 0) teacher salary_type base_amount
               percentage (today env) "active" (utcnow env)]) as Hone.
  { rewrite set_teacher_salary_active. now rewrite String.eqb_refl. }
  split; [exact Hone|]. split.
  - unfold Mongo.find_one. unfold Motor.find in Hone.
    revert Hone.
    generalize (snd (set_teacher_salary env teacher salary_type base_amount
                       percentage c)).
    intros l. induction l as [|s r IH]; simpl; [discriminate|].
    destruct (TeacherSalary.active_for teacher s); [|exact IH].
    intros H. now inversion H.
  - split.
    + intros other Hother. rewrite set_teacher_salary_active.
      destruct (String.eqb_spec other teacher); [contradiction | reflexivity].
    + unfold set_teacher_salary, Mongo.insert_one, Motor.update_many.
      cbn [snd]. rewrite map_app, map_map. simpl. f_equal.
      apply map_ext. intros s.
      now destruct (TeacherSalary.active_for teacher s).
Qed.

Lemma set_teacher_salary_one_active_witness :
  "t2" <> "t1" /\
  Motor.find (TeacherSalary.active_for "t2")
    (snd (set_teacher_salary Fixture.env "t1" "fixed" 30000 0
            (set_teacher_salaries [Fixture.fixed "t1" 25000;
                                   Fixture.fixed "t2" 20000] [])))
  = Motor.find (TeacherSalary.active_for "t2")
      (set_teacher_salaries [Fixture.fixed "t1" 25000;
                             Fixture.fixed "t2" 20000] []).
Proof.
  split; [discriminate|].
  apply (proj1 (proj2 (proj2
           (set_teacher_salary_one_active Fixture.env "t1" "fixed" 30000 0
              (set_teacher_salaries [Fixture.fixed "t1" 25000;
                                     Fixture.fixed "t2" 20000] []))))).
  discriminate.
Defined.

(** X10.  After any sequence of [set_teacher_salary] requests, on any
    collection, every teacher named in the sequence has exactly one active
    salary structure. *)
Theorem set_teacher_salaries_one_active
  (calls : list SalaryCall) (c : list TeacherSalary.t) (teacher : string) :
  In teacher (teachers_of calls) ->
  exists salary,
    Motor.find (TeacherSalary.active_for teacher) (set_teacher_salaries calls c)
    = [salary].
Proof.
  unfold teachers_of, set_teacher_salaries.
  induction calls as [|last init IH] using rev_ind; [intros []|].
  rewrite map_app, fold_left_app. cbn [fold_left map]. intros Hin.
  unfold salary_call at 1. rewrite set_teacher_salary_active.
  destruct (String.eqb_spec teacher (sc_teacher_id last)) as [E|E].
  - eexists. reflexivity.
  - apply IH. apply in_app_or in Hin. destruct Hin as [H|[H|[]]];
      [exact H | congruence].
Qed.

Lemma set_teacher_salaries_one_active_witness :
  In "t1" (teachers_of [Fixture.fixed "t1" 25000; Fixture.fixed "t2" 20000;
                        Fixture.fixed "t1" 30000]) /\
  exists salary,
    Motor.find (TeacherSalary.active_for "t1")
      (set_teacher_salaries [Fixture.fixed "t1" 25000; Fixture.fixed "t2" 20000;
                             Fixture.fixed "t1" 30000] [])
    = [salary].
Proof.
  split; [now left|].
  apply (set_teacher_salaries_one_active
           [Fixture.fixed "t1" 25000; Fixture.fixed "t2" 20000;
            Fixture.fixed "t1" 30000] [] "t1").
  now left.
Defined.

(** ** Assignments *)

Import lms_teacher_routes.

(** X11.  A submission that is accepted is stored as one new pending,
    ungraded document; a second submission of the same student for the
    same assignment is refused with "Assignment already submitted" and
    writes nothing. *)
Theorem submit_assignment_twice
  (env1 env2 : Env) (assignment_id : string)
  (first second : SubmissionData)
  (stored stored1 : list AssignmentSubmission.t) (r : string) :
  submit_assignment env1 assignment_id first stored = (inr r, stored1) ->
  sd_student_id second = sd_student_id first ->
  exists student s,
    sd_student_id first = Some student /\
    stored1 = (stored ++ [s])%list /\
    AssignmentSubmission.assignment_id s = assignment_id /\
    AssignmentSubmission.student_id s = student /\
    AssignmentSubmission.status s = "pending" /\
    AssignmentSubmission.marks_obtained s = None /\
    submit_assignment env2 assignment_id second stored1
    = (inl AlreadySubmitted, stored1).
Proof.
  unfold submit_assignment. intros H Hsame. rewrite Hsame.
  destruct (sd_student_id first) as [student|].
  - destruct (Mongo.find_one _ stored) eqn:Hnone; [discriminate|].
    inversion H; subst. eexists. eexists.
    split; [reflexivity|]. split; [reflexivity|].
    repeat (split; [reflexivity|]).
    rewrite find_one_insert_one, Hnone.
    unfold AssignmentSubmission.of_student. simpl.
    now rewrite !String.eqb_refl.
  - destruct (Mongo.find_one _ stored); discriminate.
Qed.

Lemma submit_assignment_twice_witness :
  submit_assignment Fixture.env "hw1" (Fixture.submission_of "A") []
  = (inr "Assignment submitted successfully",
     snd (submit_assignment Fixture.env "hw1" (Fixture.submission_of "A") [])) /\
  exists student s,
    sd_student_id (Fixture.submission_of "A") = Some student /\
    snd (submit_assignment Fixture.env "hw1" (Fixture.submission_of "A") [])
    = ([] ++ [s])%list /\
    AssignmentSubmission.assignment_id s = "hw1" /\
    AssignmentSubmission.student_id s = student /\
    AssignmentSubmission.status s = "pending" /\
    AssignmentSubmission.marks_obtained s = None /\
    submit_assignment Fixture.env "hw1" (Fixture.submission_of "A")
      (snd (submit_assignment Fixture.env "hw1" (Fixture.submission_of "A") []))
    = (inl AlreadySubmitted,
       snd (submit_assignment Fixture.env "hw1" (Fixture.submission_of "A") [])).
Proof.
  split; [reflexivity|].
  apply (submit_assignment_twice Fixture.env Fixture.env "hw1"
           (Fixture.submission_of "A") (Fixture.submission_of "A") [] _
           "Assignment submitted successfully");
    reflexivity.
Defined.

(** X12.  A submission without [student_id] is answered with a server
    error and stores nothing, whatever is stored. *)
Theorem submit_assignment_without_student
  (env : Env) (assignment_id : string) (submission_data : SubmissionData)
  (stored : list AssignmentSubmission.t) :
  sd_student_id submission_data = None ->
  submit_assignment env assignment_id submission_data stored
  = (inl InternalServerError, stored).
Proof.
  unfold submit_assignment. intros ->.
  assert (Mongo.find_one (fun _ : AssignmentSubmission.t => false) stored = None)
    as ->; [|reflexivity].
  unfold Mongo.find_one. induction stored; simpl; auto.
Qed.

Lemma submit_assignment_without_student_witness :
  sd_student_id (mkSubmissionData None (Some "done") None) = None /\
  submit_assignment Fixture.env "hw1" (mkSubmissionData None (Some "done") None) []
  = (inl InternalServerError, []).
Proof.
  split; [reflexivity|].
  apply (submit_assignment_without_student Fixture.env "hw1"
           (mkSubmissionData None (Some "done") None) []).
  reflexivity.
Defined.

Lemma find_one_ext {D : Type} (p q : D -> bool) (c : list D) :
  (forall d, p d = q d) -> Mongo.find_one p c = Mongo.find_one q c.
Proof.
  intros H. unfold Mongo.find_one.
  induction c as [|d r IH]; simpl; [reflexivity|].
  rewrite H. now rewrite IH.
Qed.

Lemma find_one_some_after_update {D : Type} (p q : D -> bool) (u : D -> D)
  (c : list D) :
  (forall d, p (u d) = p d) ->
  Mongo.find_one p c <> None ->
  Mongo.find_one p (Mongo.update_one q u c) <> None.
Proof.
  intros Hp. unfold Mongo.find_one.
  induction c as [|d r IH]; simpl; [auto|].
  destruct (q d) eqn:Hq; simpl.
  - rewrite Hp. destruct (p d); [discriminate | auto].
  - destruct (p d); [discriminate | exact IH].
Qed.

(** X13.  With marks the driver can encode, that is within 8 bytes,
    grading marks the first stored submission with the given id as
    graded, with the marks and the feedback; for an id that is not stored
    it answers the same and changes nothing.  With larger marks the
    answer is a server error and every submission stays as it was.
    Either way no other field of any submission changes, and a student
    who could not submit again before the request cannot after it. *)
Theorem grade_assignment_effect
  (submission_id : string) (marks : Z) (feedback : string)
  (stored : list AssignmentSubmission.t) :
  let by_id s := String.eqb (AssignmentSubmission.id s) submission_id in
  let graded := grade_assignment submission_id marks feedback stored in
  let after := snd graded in
  (Bson.int64 marks = true ->
   fst graded = inr "Assignment graded successfully" /\
   (Mongo.find_one by_id stored = None -> after = stored) /\
   (forall s, Mongo.find_one by_id stored = Some s ->
      Mongo.find_one by_id after
      = Some (AssignmentSubmission.mk (AssignmentSubmission.id s)
                (AssignmentSubmission.assignment_id s)
                (AssignmentSubmission.student_id s)
                (AssignmentSubmission.submission_date s)
                (AssignmentSubmission.attachments s)
                (Some marks) (Some feedback) "graded"))) /\
  (Bson.int64 marks = false -> graded = (inl InternalServerError, stored)) /\
  map (fun s => (AssignmentSubmission.id s, AssignmentSubmission.assignment_id s,
                 AssignmentSubmission.student_id s)) after
  = map (fun s => (AssignmentSubmission.id s, AssignmentSubmission.assignment_id s,
                   AssignmentSubmission.student_id s)) stored /\
  (forall env assignment_id submission_data,
     fst (submit_assignment env assignment_id submission_data stored)
     = inl AlreadySubmitted ->
     fst (submit_assignment env assignment_id submission_data after)
     = inl AlreadySubmitted).
Proof.
  cbv zeta. unfold grade_assignment.
  destruct (Bson.int64 marks); cbn [fst snd].
  - split.
    { intros _. split; [reflexivity|]. split; [apply update_one_no_match|].
      intros s Hs. rewrite find_one_update_one by reflexivity. now rewrite Hs. }
    split; [discriminate|].
    split; [now apply update_one_map|].
    intros env assignment_id submission_data. unfold submit_assignment.
    destruct (Mongo.find_one _ stored) eqn:Hfound.
    + intros _.
      match goal with
      | |- context [Mongo.find_one ?p (Mongo.update_one ?q ?u stored)] =>
          pose proof (find_one_some_after_update p q u stored) as Hkeep
      end.
      destruct (Mongo.find_one _ (Mongo.update_one _ _ stored));
        [reflexivity|].
      exfalso. apply Hkeep; [|rewrite Hfound; discriminate|reflexivity].
      intros d. destruct (sd_student_id submission_data); reflexivity.
    + destruct (sd_student_id submission_data); discriminate.
  - split; [discriminate|]. split; [reflexivity|]. split; [reflexivity|].
    auto.
Qed.

Lemma grade_assignment_effect_witness :
  (Bson.int64 18 = true /\
   Mongo.find_one (fun s => String.eqb (AssignmentSubmission.id s) "7c9e6679-0")
     (snd (submit_assignment Fixture.env "hw1" (Fixture.submission_of "A") []))
   = Some (AssignmentSubmission.mk "7c9e6679-0" "hw1" "A" 1700000000 [] None
             None "pending") /\
   Mongo.find_one (fun s => String.eqb (AssignmentSubmission.id s) "7c9e6679-0")
     (snd (grade_assignment "7c9e6679-0" 18 "Good"
             (snd (submit_assignment Fixture.env "hw1"
                     (Fixture.submission_of "A") []))))
   = Some (AssignmentSubmission.mk "7c9e6679-0" "hw1" "A" 1700000000 []
             (Some 18) (Some "Good") "graded")) /\
  (Bson.int64 (2 ^ 63) = false /\
   grade_assignment "7c9e6679-0" (2 ^ 63) "Good"
     (snd (submit_assignment Fixture.env "hw1" (Fixture.submission_of "A") []))
   = (inl InternalServerError,
      snd (submit_assignment Fixture.env "hw1" (Fixture.submission_of "A") []))).
Proof.
  split.
  - split; [reflexivity|]. split; [reflexivity|].
    apply (proj2 (proj2 (proj1
             (grade_assignment_effect "7c9e6679-0" 18 "Good"
                (snd (submit_assignment Fixture.env "hw1"
                        (Fixture.submission_of "A") [])))
             eq_refl))
             (AssignmentSubmission.mk "7c9e6679-0" "hw1" "A" 1700000000 [] None
                None "pending")).
    reflexivity.
  - split; [reflexivity|].
    apply (proj1 (proj2
             (grade_assignment_effect "7c9e6679-0" (2 ^ 63) "Good"
                (snd (submit_assignment Fixture.env "hw1"
                        (Fixture.submission_of "A") []))))).
    reflexivity.
Defined.

(** X14.  After [remove_student_from_batch] the student is shown no
    assignments, whatever is stored. *)
Theorem removed_student_sees_no_assignments
  (db : DB) (batch_id student_id : string)
  (all_assignments : list Assignment.t)
  (stored : list AssignmentSubmission.t) :
  get_student_assignments student_id
    (snd (remove_student_from_batch batch_id student_id db))
    all_assignments stored
  = mkStudentAssignments [] None.
Proof.
  unfold get_student_assignments, remove_student_from_batch. run.
  rewrite find_one_update_one by reflexivity.
  now destruct (Mongo.find_one _ (student_profiles db)).
Qed.

(** X15.  After a successful enroll-with-fees call into a batch whose id
    is not empty, the student is shown the first 100 stored assignments of
    that batch, in storage order, each with the student's own first
    submission for it when there is one. *)
Theorem enrolled_student_sees_batch_assignments
  (env : Env) (db db1 : DB) (batch_id student_id : string)
  (total_fee discount : float) (installments : Z) (r : string * string)
  (all_assignments : list Assignment.t)
  (stored : list AssignmentSubmission.t) :
  enroll_student_with_fees env batch_id student_id total_fee discount
    installments db = (inr r, db1) ->
  batch_id <> "" ->
  let of_batch :=
    Motor.to_list 100
      (Motor.find (fun a => String.eqb (Assignment.batch_id a) batch_id)
         all_assignments) in
  let own a :=
    Mongo.find_one
      (AssignmentSubmission.of_student (Assignment.id a) student_id) stored in
  let shown := get_student_assignments student_id db1 all_assignments stored in
  assignments shown = map (fun a => (a, own a)) of_batch /\
  submissions shown
  = Some (flat_map (fun a => match own a with Some s => [s] | None => [] end)
            of_batch).
Proof.
  intros H Hid. cbv zeta.
  destruct (enroll_with_fees_effects _ _ _ _ _ _ _ _ _ H)
    as (b1 & p & _ & _ & Hp & Hbatch & _).
  unfold find_profile in Hp. unfold get_student_assignments.
  rewrite Hp, Hbatch.
  destruct (String.eqb_spec batch_id ""); [contradiction|].
  cbn [assignments submissions]. split; [reflexivity|].
  f_equal. now rewrite flat_map_concat_map, map_map, <- flat_map_concat_map.
Qed.

Lemma enrolled_student_sees_batch_assignments_witness :
  enroll_student_with_fees Fixture.env "b1" "A" 0 0 2 Fixture.db_registered
  = (inr ("Student enrolled successfully", "b1"),
     snd (enroll_student_with_fees Fixture.env "b1" "A" 0 0 2
            Fixture.db_registered)) /\
  "b1" <> "" /\
  assignments
    (get_student_assignments "A"
       (snd (enroll_student_with_fees Fixture.env "b1" "A" 0 0 2
               Fixture.db_registered))
       (snd (create_assignment Fixture.env Fixture.homework "t1" [])) [])
  = map (fun a => (a, Mongo.find_one
                        (AssignmentSubmission.of_student (Assignment.id a) "A")
                        []))
      (Motor.to_list 100
         (Motor.find (fun a => String.eqb (Assignment.batch_id a) "b1")
            (snd (create_assignment Fixture.env Fixture.homework "t1" [])))).
Proof.
  split; [reflexivity|]. split; [discriminate|].
  apply (proj1 (enrolled_student_sees_batch_assignments Fixture.env
                  Fixture.db_registered
                  (snd (enroll_student_with_fees Fixture.env "b1" "A" 0 0 2
                          Fixture.db_registered))
                  "b1" "A" 0 0 2 ("Student enrolled successfully", "b1")
                  (snd (create_assignment Fixture.env Fixture.homework "t1" []))
                  [] eq_refl ltac:(discriminate))).
Defined.




(** ** Enrollment, edge cases *)

(** X17.  With a positive fee and [installments = 0] the enroll-with-fees
    handler answers with a server error after it has enrolled the student:
    the student is in the roster and the profile points at the batch, but
    no fee structure is stored.  A retry with a valid number of
    installments is then refused as a duplicate (or for capacity), so this
    route can no longer create the fee structure. *)
Theorem enroll_with_fees_zero_installments
  (env env' : Env) (db : DB) (batch_id student_id : string)
  (total_fee discount total_fee' discount' : float) (installments' : Z)
  (b : Batch.t) :
  find_batch batch_id db = Some b ->
  Z.of_nat (List.length (Batch.enrolled_students b)) < Batch.capacity b ->
  Py.mem student_id (Batch.enrolled_students b) = false ->
  (0 <? total_fee)%float = true ->
  let result :=
    enroll_student_with_fees env batch_id student_id total_fee discount 0 db in
  fst result = inl InternalServerError /\
  find_batch batch_id (snd result)
  = Some (Batch.with_enrolled_students (fun l => l ++ [student_id])%list b) /\
  (exists p, find_profile student_id (snd result) = Some p /\
             StudentProfile.batch_id p = Some batch_id) /\
  fee_structures (snd result) = fee_structures db /\
  (exists e,
     enroll_student_with_fees env' batch_id student_id total_fee' discount'
       installments' (snd result) = (inl e, snd result) /\
     (e = AlreadyEnrolled \/ e = CapacityExceeded)).
Proof.
  intros Hb Hlt Hmem Hfee. cbv zeta.
  assert (enroll_student_with_fees env batch_id student_id total_fee discount 0 db
          = (inl InternalServerError,
             on_student_profiles
               (Mongo.update_one_upsert (StudentProfile.by_user_id student_id)
                  (fun p => StudentProfile.mk (StudentProfile.user_id p)
                              (Mongo.addToSet (Batch.course_id b)
                                 (StudentProfile.enrolled_courses p))
                              (Some batch_id) "active")
                  (StudentProfile.mk student_id [Batch.course_id b]
                     (Some batch_id) "active"))
               (on_batches
                  (Mongo.update_one (Batch.by_id batch_id)
                     (Batch.with_enrolled_students (Mongo.addToSet student_id)))
                  db))) as ->.
  { unfold find_batch in Hb. unfold enroll_student_with_fees. run.
    rewrite Hb, Hmem, Hfee.
    destruct (Z.geb_spec (Z.of_nat (List.length (Batch.enrolled_students b)))
                (Batch.capacity b)); [lia | reflexivity]. }
  cbn [fst snd].
  assert (find_batch batch_id
            (on_student_profiles
               (Mongo.update_one_upsert (StudentProfile.by_user_id student_id)
                  (fun p => StudentProfile.mk (StudentProfile.user_id p)
                              (Mongo.addToSet (Batch.course_id b)
                                 (StudentProfile.enrolled_courses p))
                              (Some batch_id) "active")
                  (StudentProfile.mk student_id [Batch.course_id b]
                     (Some batch_id) "active"))
               (on_batches
                  (Mongo.update_one (Batch.by_id batch_id)
                     (Batch.with_enrolled_students (Mongo.addToSet student_id)))
                  db))
          = Some (Batch.with_enrolled_students
                    (fun l => (l ++ [student_id])%list) b)) as Hb1.
  { unfold find_batch in *. cbn [batches on_student_profiles on_batches].
    rewrite find_one_update_one by reflexivity. rewrite Hb. simpl.
    unfold Batch.with_enrolled_students. now rewrite addToSet_new. }
  split; [reflexivity|]. split; [exact Hb1|]. split.
  { unfold find_profile. cbn [student_profiles on_student_profiles].
    rewrite find_one_update_one_upsert; [| reflexivity | apply String.eqb_refl].
    eexists. split; [reflexivity|].
    now destruct (Mongo.find_one (StudentProfile.by_user_id student_id) _). }
  split; [reflexivity|].
  unfold find_batch in Hb1. unfold enroll_student_with_fees. run.
  rewrite Hb1.
  destruct (Z.of_nat _ >=? _); [eexists; split; [reflexivity | now right]|].
  assert (Py.mem student_id
            (Batch.enrolled_students
               (Batch.with_enrolled_students
                  (fun l => (l ++ [student_id])%list) b)) = true) as ->.
  { apply mem_true_iff. simpl. apply in_or_app. right. now left. }
  eexists. split; [reflexivity | now left].
Qed.

Lemma enroll_with_fees_zero_installments_witness :
  find_batch "b1" Fixture.db_registered = Some (Scenario.batch 30 []) /\
  (0 <? 17999)%float = true /\
  fst (enroll_student_with_fees Fixture.env "b1" "A" 17999 0 0
         Fixture.db_registered) = inl InternalServerError /\
  find_batch "b1"
    (snd (enroll_student_with_fees Fixture.env "b1" "A" 17999 0 0
            Fixture.db_registered))
  = Some (Batch.with_enrolled_students (fun l => l ++ ["A"])%list
            (Scenario.batch 30 [])).
Proof.
  split; [reflexivity|]. split; [reflexivity|].
  destruct (enroll_with_fees_zero_installments Fixture.env Fixture.env
              Fixture.db_registered "b1" "A" 17999 0 17999 0 2
              (Scenario.batch 30 []) eq_refl ltac:(vm_compute; reflexivity)
              eq_refl eq_refl) as (H1 & H2 & _).
  split; [exact H1 | exact H2].
Defined.

(** X18.  A successful plain [enroll_student] leaves the student in the
    roster.  An existing profile then points at the batch and holds the
    course of the batch besides the courses it had; for a student without
    a profile none is created. *)
Theorem enroll_student_effects
  (db db1 : DB) (batch_id student_id : string) (r : string) :
  enroll_student batch_id student_id db = (inr r, db1) ->
  exists b b1,
    find_batch batch_id db = Some b /\
    find_batch batch_id db1 = Some b1 /\
    In student_id (Batch.enrolled_students b1) /\
    map StudentProfile.user_id (student_profiles db1)
    = map StudentProfile.user_id (student_profiles db) /\
    (find_profile student_id db = None ->
     student_profiles db1 = student_profiles db) /\
    (forall p, find_profile student_id db = Some p ->
       exists p1,
         find_profile student_id db1 = Some p1 /\
         StudentProfile.batch_id p1 = Some batch_id /\
         In (Batch.course_id b) (StudentProfile.enrolled_courses p1) /\
         incl (StudentProfile.enrolled_courses p)
           (StudentProfile.enrolled_courses p1)).
Proof.
  unfold enroll_student, find_batch, find_profile. run.
  destruct (Mongo.find_one (Batch.by_id batch_id) (batches db)) as [b|] eqn:Hb;
    [|discriminate].
  destruct (Z.of_nat _ >=? _); [discriminate|].
  intros H. inversion H; subst. simpl.
  exists b. eexists. split; [reflexivity|]. split.
  { rewrite find_one_update_one by reflexivity. rewrite Hb. reflexivity. }
  split; [apply addToSet_In|]. split; [now apply update_one_map|]. split.
  - apply update_one_no_match.
  - intros p Hp. rewrite find_one_update_one by reflexivity. rewrite Hp.
    eexists. split; [reflexivity|]. simpl.
    split; [reflexivity|]. split; [apply addToSet_In|].
    intros c Hc. unfold Mongo.addToSet.
    destruct (Py.mem _ _); [exact Hc | apply in_or_app; now left].
Qed.

Lemma enroll_student_effects_witness :
  enroll_student "b1" "A" Fixture.db_registered
  = (inr "Student enrolled successfully",
     snd (enroll_student "b1" "A" Fixture.db_registered)) /\
  exists b b1,
    find_batch "b1" Fixture.db_registered = Some b /\
    find_batch "b1" (snd (enroll_student "b1" "A" Fixture.db_registered))
    = Some b1 /\
    In "A" (Batch.enrolled_students b1).
Proof.
  split; [reflexivity|].
  destruct (enroll_student_effects Fixture.db_registered
              (snd (enroll_student "b1" "A" Fixture.db_registered)) "b1" "A"
              "Student enrolled successfully" eq_refl)
    as (b & b1 & H1 & H2 & H3 & _).
  exists b, b1. auto.
Defined.

(** ** Bulk import *)






(** A row whose fee is written as a string is reported with the text of
    the [TypeError], is not counted, and its student is in the roster
    all the same; the rows around it are handled as usual. *)
Example bulk_enroll_fee_as_text :
  let result :=
    bulk_enroll_students Fixture.env "b1"
      [Fixture.row_new; Fixture.row_fee_as_text] (Scenario.db_with 30 []) in
  fst result
  = inr (mkReport "Enrolled 1 students" 1
           [mkRowError 2 "d@example.com"
              "unsupported operand type(s) for -: 'str' and 'int'"]) /\
  find_batch "b1" (snd result)
  = Some (Scenario.batch 30 ["7c9e6679-0"; "7c9e6679-2"]) /\
  map FeeStructure.student_id (fee_structures (snd result)) = ["7c9e6679-0"].
Proof. cbv zeta. repeat split; reflexivity. Qed.

(** What the fee values of a row raise: nothing for a number or a
    missing key, the [TypeError] of the subtraction for null, and the
    [OverflowError] of the division for an [int] beyond the floats. *)
Example fee_exceptions :
  map (fun total_fee =>
         option_map PyNum.str
           (fee_exception Fixture.env "b1" (Scenario.batch 30 [])
              (mkRow "E" "e@example.com" None total_fee None)))
    [None; Some (Doc.VInt 17999); Some (Doc.VFloat 17999.5); Some Doc.VNone;
     Some (Doc.VInt (10 ^ 400))]
  = [None; None; None;
     Some "unsupported operand type(s) for -: 'NoneType' and 'int'";
     Some "integer division result too large for a float"].
Proof. vm_compute. reflexivity. Qed.





(** ** Enrolling and removing *)

Lemma update_one_undone {D : Type} (filter : D -> bool) (u v : D -> D)
  (c : list D) :
  (forall d, filter (u d) = filter d) ->
  (forall d, Mongo.find_one filter c = Some d -> v (u d) = d) ->
  Mongo.update_one filter v (Mongo.update_one filter u c) = c.
Proof.
  intros Hf. unfold Mongo.find_one.
  induction c as [|d r IH]; simpl; intros Hv; [reflexivity|].
  destruct (filter d) eqn:E; simpl.
  - rewrite Hf, E. f_equal. now apply Hv.
  - rewrite E. f_equal. now apply IH.
Qed.

Lemma pull_appended (x : string) (xs : list string) :
  ~ In x xs -> Mongo.pull x (xs ++ [x]) = xs.
Proof.
  intros Hx. unfold Mongo.pull. rewrite filter_app. simpl.
  rewrite String.eqb_refl. simpl. rewrite app_nil_r.
  induction xs as [|y r IH]; simpl; [reflexivity|].
  destruct (String.eqb_spec y x) as [->|]; simpl.
  - exfalso. apply Hx. now left.
  - f_equal. apply IH. intros H. apply Hx. now right.
Qed.

(** X21.  Enrolling a student who was not in the roster and then removing
    the student gives back the batches exactly as they were.  The profile
    is not restored: it has no batch, and the course of the batch stays
    among its enrolled courses. *)
Theorem enroll_then_remove
  (db db1 : DB) (batch_id student_id : string) (r : string) (b : Batch.t) :
  enroll_student batch_id student_id db = (inr r, db1) ->
  find_batch batch_id db = Some b ->
  ~ In student_id (Batch.enrolled_students b) ->
  let db2 := snd (remove_student_from_batch batch_id student_id db1) in
  batches db2 = batches db /\
  forall p, find_profile student_id db = Some p ->
    exists p2,
      find_profile student_id db2 = Some p2 /\
      StudentProfile.batch_id p2 = None /\
      In (Batch.course_id b) (StudentProfile.enrolled_courses p2).
Proof.
  unfold enroll_student, remove_student_from_batch, find_batch, find_profile.
  run. intros H Hb Hnot. rewrite Hb in H.
  destruct (Z.of_nat _ >=? _); [discriminate|].
  inversion H; subst. simpl. split.
  - apply update_one_undone; [reflexivity|].
    intros d Hd. rewrite Hb in Hd. inversion Hd; subst d.
    destruct b as [i c n t m roster st]. unfold Batch.with_enrolled_students.
    simpl in *. f_equal. rewrite addToSet_new.
    + now apply pull_appended.
    + destruct (Py.mem student_id roster) eqn:E; [|reflexivity].
      apply mem_true_iff in E. contradiction.
  - intros p Hp. rewrite !find_one_update_one by reflexivity. rewrite Hp.
    eexists. split; [reflexivity|]. simpl.
    split; [reflexivity | apply addToSet_In].
Qed.

Lemma enroll_then_remove_witness :
  enroll_student "b1" "A" Fixture.db_registered
  = (inr "Student enrolled successfully",
     snd (enroll_student "b1" "A" Fixture.db_registered)) /\
  find_batch "b1" Fixture.db_registered = Some (Scenario.batch 30 []) /\
  ~ In "A" (Batch.enrolled_students (Scenario.batch 30 [])) /\
  batches (snd (remove_student_from_batch "b1" "A"
                  (snd (enroll_student "b1" "A" Fixture.db_registered))))
  = batches Fixture.db_registered.
Proof.
  split; [reflexivity|]. split; [reflexivity|]. split; [intros []|].
  apply (proj1 (enroll_then_remove Fixture.db_registered
                  (snd (enroll_student "b1" "A" Fixture.db_registered))
                  "b1" "A" "Student enrolled successfully"
                  (Scenario.batch 30 []) eq_refl eq_refl
                  (fun H : In "A" [] => H))).
Defined.

(** ** Payments against the ledger *)

Lemma record_payments_ledger (fee_structure_id : string)
  (calls : list PaymentCall) :
  forall db f,
    find_fee fee_structure_id db = Some f ->
    exists f',
      find_fee fee_structure_id (record_payments fee_structure_id calls db)
      = Some f' /\
      FeeStructure.paid_amount f'
      = fold_left PrimFloat.add (map call_amount calls)
          (FeeStructure.paid_amount f) /\
      map FeePayment.amount
        (payments_of fee_structure_id
           (record_payments fee_structure_id calls db))
      = (map FeePayment.amount (payments_of fee_structure_id db)
         ++ map call_amount calls)%list.
Proof.
  induction calls as [|c rest IH]; intros db f Hf.
  - exists f. simpl. now rewrite app_nil_r.
  - unfold record_payments. cbn [fold_left map].
    pose proof (find_fee_after_call fee_structure_id c db f Hf) as Hf1.
    destruct (IH _ _ Hf1) as (f' & Hf' & Hpaid & Hpayments).
    exists f'. split; [exact Hf'|]. split; [exact Hpaid|].
    unfold record_payments in Hpayments. rewrite Hpayments.
    unfold record_call at 1.
    destruct (record_fee_payment_found (call_env c) db fee_structure_id
                (call_amount c) (call_method c) (call_transaction_id c)
                (call_notes c) f Hf)
      as (receipt & p & -> & Hamount & Hid & _).
    unfold payments_of, Motor.find. cbn [snd fee_payments].
    rewrite filter_app. cbn [List.filter]. rewrite Hid, String.eqb_refl.
    rewrite map_app. cbn [map]. rewrite Hamount, <- app_assoc. reflexivity.
Qed.

(** X22.  For a fee structure with nothing paid and no payment record
    yet, after any sequence of [record_fee_payment] calls the stored
    payment records of the structure carry the amounts of the calls, in
    order, and [paid_amount] is those amounts added up from 0 in that
    order: the two collections agree. *)
Theorem paid_amount_is_sum_of_payments
  (fee_structure_id : string) (calls : list PaymentCall) (db : DB)
  (f : FeeStructure.t) :
  find_fee fee_structure_id db = Some f ->
  FeeStructure.paid_amount f = 0%float ->
  payments_of fee_structure_id db = [] ->
  let after := record_payments fee_structure_id calls db in
  map FeePayment.amount (payments_of fee_structure_id after)
  = map call_amount calls /\
  exists f',
    find_fee fee_structure_id after = Some f' /\
    FeeStructure.paid_amount f'
    = fold_left PrimFloat.add
        (map FeePayment.amount (payments_of fee_structure_id after)) 0%float.
Proof.
  intros Hf Hpaid Hnone. cbv zeta.
  destruct (record_payments_ledger fee_structure_id calls db f Hf)
    as (f' & Hf' & Hp & Hpayments).
  rewrite Hnone in Hpayments. simpl in Hpayments.
  split; [exact Hpayments|]. exists f'. split; [exact Hf'|].
  rewrite Hp, Hpayments, Hpaid. reflexivity.
Qed.

Lemma paid_amount_is_sum_of_payments_witness :
  find_fee "f1" Scenario.db_unpaid = Some (Scenario.fee 10000 1000 0 9000) /\
  payments_of "f1" Scenario.db_unpaid = [] /\
  map FeePayment.amount
    (payments_of "f1"
       (record_payments "f1" [Scenario.pay 5000; Scenario.pay 6000]
          Scenario.db_unpaid))
  = map call_amount [Scenario.pay 5000; Scenario.pay 6000].
Proof.
  split; [reflexivity|]. split; [reflexivity|].
  apply (proj1 (paid_amount_is_sum_of_payments "f1"
                  [Scenario.pay 5000; Scenario.pay 6000] Scenario.db_unpaid
                  (Scenario.fee 10000 1000 0 9000) eq_refl eq_refl eq_refl)).
Defined.

(** ** Rosters under the bulk import *)

Lemma bulk_enroll_loop_NoDup (env : Env) (batch_id : string)
  (batch : Batch.t) (students : list StudentRow) :
  forall idx enrolled_count errors db,
    Forall (fun b => NoDup (Batch.enrolled_students b)) (batches db) ->
    Forall (fun b => NoDup (Batch.enrolled_students b))
      (batches (snd (bulk_enroll_loop env batch_id batch idx students
                       enrolled_count errors db))).
Proof.
  induction students as [|s rest IH]; intros idx n errs db Hdb; [exact Hdb|].
  assert (forall x d, batches d = batches db ->
            Forall (fun b => NoDup (Batch.enrolled_students b))
              (Mongo.update_one (Batch.by_id batch_id)
                 (Batch.with_enrolled_students (Mongo.addToSet x)) (batches d)))
    as Hadd.
  { intros x d ->. apply update_one_Forall; [exact Hdb|].
    intros b _ Hb. simpl. now apply addToSet_NoDup. }
  cbn [bulk_enroll_loop]. unfold bind, read, write, ret. simpl.
  destruct (Mongo.find_one (User.by_email (row_email s)) (users db)) as [u|];
    simpl;
    (destruct (Py.mem _ (Batch.enrolled_students batch));
     [ apply IH; exact Hdb
     | destruct (fee_of_row _ _ _ _ _ _) as [e|[fee|]]; simpl; apply IH; simpl;
       first [ apply (Hadd _ db); reflexivity
             | apply (Hadd _ (on_users (Mongo.insert_one _) db)); reflexivity ] ]).
Qed.

(** X23.  The bulk import keeps every roster free of duplicates: where no
    batch lists a student twice before, none does after, also when the
    same student appears on several rows. *)
Theorem bulk_enroll_keeps_rosters_NoDup
  (env : Env) (batch_id : string) (students : list StudentRow) (db : DB) :
  Forall (fun b => NoDup (Batch.enrolled_students b)) (batches db) ->
  Forall (fun b => NoDup (Batch.enrolled_students b))
    (batches (snd (bulk_enroll_students env batch_id students db))).
Proof.
  intros Hdb. unfold bulk_enroll_students. unfold bind, read, ret, raise. simpl.
  destruct (Mongo.find_one (Batch.by_id batch_id) (batches db)) as [b|];
    [|exact Hdb].
  pose proof (bulk_enroll_loop_NoDup env batch_id b students 0%nat 0%nat []
                db Hdb) as H.
  destruct (bulk_enroll_loop env batch_id b 0 students 0 [] db)
    as [[e|r] db']; exact H.
Qed.

Lemma bulk_enroll_keeps_rosters_NoDup_witness :
  Forall (fun b => NoDup (Batch.enrolled_students b))
    (batches Scenario.db_full_with_B) /\
  Forall (fun b => NoDup (Batch.enrolled_students b))
    (batches (snd (bulk_enroll_students Fixture.env "b1"
                     [Fixture.row_new; Fixture.row_new; Scenario.row_B]
                     Scenario.db_full_with_B))).
Proof.
  assert (Forall (fun b => NoDup (Batch.enrolled_students b))
            (batches Scenario.db_full_with_B)) as H.
  { repeat constructor; simpl; tauto. }
  split; [exact H|].
  apply (bulk_enroll_keeps_rosters_NoDup Fixture.env "b1"
           [Fixture.row_new; Fixture.row_new; Scenario.row_B]
           Scenario.db_full_with_B H).
Defined.

(** ** Rosters under single requests *)

Lemma roster_ok_pull (student_id : string) (b : Batch.t) :
  roster_ok b ->
  roster_ok (Batch.with_enrolled_students (Mongo.pull student_id) b).
Proof.
  intros [Hnd Hcap]. split; simpl.
  - unfold Mongo.pull. now apply NoDup_filter.
  - change (Batch.capacity (Batch.with_enrolled_students
                              (Mongo.pull student_id) b))
      with (Batch.capacity b).
    pose proof (filter_length_le (fun y => negb (y =? student_id)%string)
                  (Batch.enrolled_students b)) as Hle.
    unfold Mongo.pull. lia.
Qed.

(** X24.  Every sequence of single-enroll requests, through any of the
    three handlers, and of removals keeps the batch invariant: where every
    batch has a roster without duplicates and within [max_students] before,
    every batch has after. *)
Theorem roster_calls_keep_invariant (calls : list RosterCall) (db : DB) :
  Forall roster_ok (batches db) ->
  Forall roster_ok (batches (roster_calls calls db)).
Proof.
  unfold roster_calls. revert db.
  induction calls as [|c rest IH]; intros db Hdb; [exact Hdb|].
  cbn [fold_left]. apply IH.
  destruct c as [b s|env b s total_fee discount installments|b s|b s];
    cbn [roster_call].
  - apply (single_enroll_preserves_roster_ok Scenario.env db b s 0 0 2 Hdb).
  - apply (single_enroll_preserves_roster_ok env db b s total_fee discount
             installments Hdb).
  - apply (single_enroll_preserves_roster_ok Scenario.env db b s 0 0 2 Hdb).
  - unfold remove_student_from_batch. unfold bind, write, ret. simpl.
    apply update_one_Forall; [exact Hdb|].
    intros d _ Hd. now apply roster_ok_pull.
Qed.

Lemma roster_calls_keep_invariant_witness :
  Forall roster_ok (batches (Scenario.db_with 2 ["A"])) /\
  Forall roster_ok
    (batches (roster_calls
                [Enroll "b1" "B"; EnrollInBatch "b1" "C"; Remove "b1" "A";
                 EnrollWithFees Fixture.env "b1" "C" 17999 0 2]
                (Scenario.db_with 2 ["A"]))).
Proof.
  assert (Forall roster_ok (batches (Scenario.db_with 2 ["A"]))) as H.
  { repeat constructor; simpl; try tauto. vm_compute. discriminate. }
  split; [exact H|].
  apply (roster_calls_keep_invariant
           [Enroll "b1" "B"; EnrollInBatch "b1" "C"; Remove "b1" "A";
            EnrollWithFees Fixture.env "b1" "C" 17999 0 2]
           (Scenario.db_with 2 ["A"]) H).
Defined.

(** ** Submissions of an assignment *)

Lemma attach_students_answer (users : list User.t)
  (submissions : list AssignmentSubmission.t) :
  (Forall (fun s => Mongo.find_one
                      (fun u => String.eqb (User.id u)
                                  (AssignmentSubmission.student_id s))
                      users <> None) submissions ->
   exists rows,
     attach_students users submissions = inr rows /\
     map submission rows = submissions) /\
  (Exists (fun s => Mongo.find_one
                      (fun u => String.eqb (User.id u)
                                  (AssignmentSubmission.student_id s))
                      users = None) submissions ->
   attach_students users submissions = inl InternalServerError).
Proof.
  induction submissions as [|s rest [IHall IHsome]]; split.
  - intros _. exists []. split; reflexivity.
  - intros H. inversion H.
  - intros H. inversion H as [|x l Hs Hrest]; subst. simpl.
    destruct (Mongo.find_one _ users) as [student|]; [|congruence].
    destruct (IHall Hrest) as (rows & -> & Hrows).
    eexists. split; [reflexivity|]. simpl. now rewrite Hrows.
  - intros H. simpl.
    destruct (Mongo.find_one _ users) as [student|] eqn:Hs; [|reflexivity].
    inversion H as [x l Hx|x l Hl]; subst; [congruence|].
    now rewrite (IHsome Hl).
Qed.

(** X25.  [get_assignment_submissions] answers the first 100 stored
    submissions of the assignment, in storage order, each with the name
    and email of its student, when all their students are registered; if
    one of them has a student that is not registered, the whole request
    fails with a server error. *)
Theorem get_assignment_submissions_needs_students
  (assignment_id : string) (db : DB)
  (stored : list AssignmentSubmission.t) :
  let found :=
    Motor.to_list 100
      (Motor.find
         (fun s => String.eqb (AssignmentSubmission.assignment_id s) assignment_id)
         stored) in
  let registered s :=
    Mongo.find_one
      (fun u => String.eqb (User.id u) (AssignmentSubmission.student_id s))
      (users db) in
  (Forall (fun s => registered s <> None) found ->
   exists rows,
     get_assignment_submissions assignment_id db stored = inr rows /\
     map submission rows = found /\
     Forall (fun row =>
               exists u, registered (submission row) = Some u /\
                         student_name row = User.name u /\
                         student_email row = User.email u) rows) /\
  (Exists (fun s => registered s = None) found ->
   get_assignment_submissions assignment_id db stored
   = inl InternalServerError).
Proof.
  cbv zeta. unfold get_assignment_submissions.
  generalize (Motor.to_list 100
                (Motor.find
                   (fun s => String.eqb (AssignmentSubmission.assignment_id s)
                               assignment_id) stored)).
  intros found. split; [|apply attach_students_answer].
  intros Hall. destruct (proj1 (attach_students_answer (users db) found) Hall)
    as (rows & Hrows & Hmap).
  exists rows. split; [exact Hrows|]. split; [exact Hmap|].
  clear Hall Hmap. revert rows Hrows.
  induction found as [|s rest IH]; intros rows Hrows; simpl in Hrows.
  - inversion Hrows. constructor.
  - destruct (Mongo.find_one _ (users db)) as [u|] eqn:Hu; [|discriminate].
    destruct (attach_students (users db) rest) as [e|done]; [discriminate|].
    inversion Hrows; subst. constructor; [|now apply IH].
    exists u. simpl. auto.
Qed.

Lemma get_assignment_submissions_needs_students_witness :
  Exists (fun s => Mongo.find_one
                     (fun u => String.eqb (User.id u)
                                 (AssignmentSubmission.student_id s))
                     (users Fixture.db_enrolled) = None)
    (Motor.to_list 100
       (Motor.find
          (fun s => String.eqb (AssignmentSubmission.assignment_id s) "hw1")
          (snd (submit_assignment Fixture.env "hw1" (Fixture.submission_of "Z")
                  [])))) /\
  get_assignment_submissions "hw1" Fixture.db_enrolled
    (snd (submit_assignment Fixture.env "hw1" (Fixture.submission_of "Z") []))
  = inl InternalServerError.
Proof.
  assert (Exists (fun s => Mongo.find_one
                             (fun u => String.eqb (User.id u)
                                         (AssignmentSubmission.student_id s))
                             (users Fixture.db_enrolled) = None)
            (Motor.to_list 100
               (Motor.find
                  (fun s => String.eqb (AssignmentSubmission.assignment_id s)
                              "hw1")
                  (snd (submit_assignment Fixture.env "hw1"
                          (Fixture.submission_of "Z") []))))) as H.
  { apply Exists_cons_hd. reflexivity. }
  split; [exact H|].
  apply (proj2 (get_assignment_submissions_needs_students "hw1"
                  Fixture.db_enrolled
                  (snd (submit_assignment Fixture.env "hw1"
                          (Fixture.submission_of "Z") []))) H).
Defined.
